(** * app-store-release-action: the release pipeline of [src/index.ts]

    A shallow embedding of the GitHub Action that publishes a release to the
    application store.  The action talks to four outside parties: the GitHub
    REST API (through octokit), the local file system, the archive and YAML
    libraries, and the store's HTTP API (through axios).  Their answers are
    collected in a record [World]; every function of [index.ts] is a function
    of the world that yields the calls it makes, in order, and its result. *)

From Stdlib Require Import String Ascii List Bool Arith Lia.
From Stdlib Require Import DecimalString Permutation.
Import ListNotations.
Open Scope string_scope.
Set Warnings "-register-all".

(** ** JavaScript values *)

(** A JavaScript number that the program only passes around: it is kept as
    the text it was converted from, [NumberOf s] standing for [Number(s)]. *)
Inductive JsNum : Type :=
| NumberOf (s : string).

(** Values of type [any]: what [YAML.parse] and the store API hand back. *)
Inductive JsValue : Type :=
| JsUndefined
| JsNull
| JsBool (b : bool)
| JsNumber (n : JsNum)
| JsString (s : string)
| JsArray (items : list JsValue)
| JsObject (fields : list (string * JsValue)).

(** An [Error] object: what [throw] throws and what a rejected promise
    carries. *)
Record JsError : Type := mkError { err_name : string; err_message : string }.

Definition Error (message : string) : JsError := mkError "Error" message.
Definition TypeError (message : string) : JsError := mkError "TypeError" message.

(** [Error.prototype.toString]. *)
Definition toString (e : JsError) : string :=
  if String.eqb (err_name e) "" then err_message e
  else if String.eqb (err_message e) "" then err_name e
  else err_name e ++ ": " ++ err_message e.

Inductive Result (A : Type) : Type :=
| Ok (a : A)
| Thrown (e : JsError).
Arguments Ok {A} a.
Arguments Thrown {A} e.

Definition is_ok {A} (r : Result A) : bool :=
  match r with Ok _ => true | Thrown _ => false end.

(** [String.prototype.endsWith]. *)
Definition endsWith (s suffix : string) : bool :=
  let n := String.length s in
  let m := String.length suffix in
  if Nat.ltb n m then false else String.eqb (substring (n - m) m s) suffix.

(** Truthiness of a string: only the empty string is falsy. *)
Definition truthy_string (s : string) : bool := negb (String.eqb s "").

(** Truthiness of the result of [Array.prototype.find] on strings:
    [undefined] is falsy, a string is truthy unless empty. *)
Definition truthy_found (f : option string) : bool :=
  match f with
  | Some s => truthy_string s
  | None => false
  end.

(** The line feed, written [\n] in the source's string literals. *)
Definition LF : string := String (ascii_of_nat 10) EmptyString.

(** [`${n}`] for a non-negative integer. *)
Definition string_of_nat (n : nat) : string :=
  NilZero.string_of_uint (Nat.to_uint n).

Fixpoint lookup_field (k : string) (fields : list (string * JsValue)) : option JsValue :=
  match fields with
  | [] => None
  | (k', v) :: rest => if String.eqb k k' then Some v else lookup_field k rest
  end.

Definition describe (v : JsValue) : string :=
  match v with
  | JsNull => "null"
  | _ => "undefined"
  end.

(** Property read [v.k], for the keys the program reads ([spec], [requires],
    [version], [metadata], [name]): none of them is a built-in property of a
    primitive or of an array, so only an object can have one; reading from
    [undefined] or [null] throws a [TypeError]. *)
Definition get_prop (v : JsValue) (k : string) : Result JsValue :=
  match v with
  | JsUndefined | JsNull =>
      Thrown (TypeError ("Cannot read properties of " ++ describe v
                         ++ " (reading '" ++ k ++ "')"))
  | JsObject fields =>
      match lookup_field k fields with
      | Some x => Ok x
      | None => Ok JsUndefined
      end
  | _ => Ok JsUndefined
  end.

(** ** Data of the program *)

(** [interface CommonManifest].  The fields are declared [string]; they are
    copied from a parsed YAML document of type [any], so at run time they hold
    whatever the document has there. *)
Record CommonManifest : Type := mkManifest { requires : JsValue; version : JsValue }.

(** [data] of the answer of [octokit.rest.repos.get], as far as it is read. *)
Record RepoInfo : Type := mkRepoInfo { private : bool }.

(** [data] of the answer of [octokit.rest.repos.getRelease], as far as it is
    read; [name] and [body] may be [null]. *)
Record ReleaseInfo : Type := mkReleaseInfo {
  name : option string;
  body : option string;
  tag_name : string;
  html_url : string;
  prerelease : bool
}.

(** An opened archive: its entries by name, each with [getData().toString("utf8")],
    which throws when the entry cannot be inflated. *)
Definition Archive : Type := list (string * Result string).

Fixpoint getEntry (a : Archive) (entryName : string) : option (Result string) :=
  match a with
  | [] => None
  | (n, d) :: rest => if String.eqb entryName n then Some d else getEntry rest entryName
  end.

(** A field given to [FormData.append]: a value, or a read stream on a path. *)
Inductive FormValue : Type :=
| FormText (v : JsValue)
| FormStream (path : string).

Definition FormData : Type := list (string * FormValue).

(** ** Calls to the outside, in the order they are made *)

Inductive Event : Type :=
| Info (message : string)                               (* githubCore.info *)
| SetFailed (message : string)                          (* githubCore.setFailed *)
| ContextRepo                                           (* github.context.repo *)
| ReposGet (owner repo : string)                        (* octokit.rest.repos.get *)
| ReposGetRelease (owner repo : string) (release_id : JsNum)
| MarkdownRender (text mode context : string)           (* octokit.rest.markdown.render *)
| ExistsSync (path : string)                            (* fs.existsSync *)
| ReaddirSync (path : string)                           (* fs.readdirSync *)
| ZipOpen (path : string)                               (* new AdmZip(path) *)
| ZipGetEntry (path entryName : string)                 (* zip.getEntry *)
| YamlParse (text : string)                             (* YAML.parse *)
| StorePost (url : string) (payload : JsValue)          (* apiClient.post, JSON body *)
| StoreUpload (url : string) (form : FormData) (headers : list (string * string)).

(** ** The world: inputs of the action and answers of the outside *)

Record World : Type := mkWorld {
  (* githubCore.getInput *)
  appId : string;
  assetsDir : string;
  releaseId : string;
  (* github.context.repo: owner and repository, or the getter throws *)
  context_repo : Result (string * string);
  (* octokit *)
  repos_get : string -> string -> Result RepoInfo;
  repos_getRelease : string -> string -> JsNum -> Result ReleaseInfo;
  markdown_render : string -> string -> string -> Result string;
  (* node:fs and node:path *)
  existsSync : string -> bool;
  readdirSync : string -> Result (list string);
  path_join : string -> string -> string;
  (* adm-zip and yaml *)
  AdmZip : string -> Result Archive;
  YAML_parse : string -> Result JsValue;
  (* the store API: the answer's [data]; for an upload, also the moment the
     request settles, counted from the moment all uploads were issued *)
  store_post : string -> JsValue -> Result JsValue;
  store_upload : string -> FormData -> nat * Result unit
}.

(** ** Computations: calls made, calls still to come, result *)

(** [events] are the calls made until the computation returned or threw;
    [late] are the calls of operations that were started and not waited for,
    which happen after it. *)
Record Out (A : Type) : Type := mkOut {
  events : list Event;
  late : list Event;
  value : Result A
}.
Arguments mkOut {A} events late value.
Arguments events {A} o.
Arguments late {A} o.
Arguments value {A} o.

Definition ret {A} (a : A) : Out A := mkOut [] [] (Ok a).
Definition throw {A} (e : JsError) : Out A := mkOut [] [] (Thrown e).
Definition call {A} (ev : Event) (r : Result A) : Out A := mkOut [ev] [] r.
Definition lift {A} (r : Result A) : Out A := mkOut [] [] r.
Definition info (message : string) : Out unit := call (Info message) (Ok tt).

Definition bind {A B} (m : Out A) (k : A -> Out B) : Out B :=
  match value m with
  | Thrown e => mkOut (events m) (late m) (Thrown e)
  | Ok a => let r := k a in
            mkOut (events m ++ events r) (late m ++ late r) (value r)
  end.

(** [try { m } catch (error) { handler error }]. *)
Definition try_catch {A} (m : Out A) (handler : JsError -> Out A) : Out A :=
  match value m with
  | Ok _ => m
  | Thrown e => let r := handler e in
                mkOut (events m ++ events r) (late m ++ late r) (value r)
  end.

Declare Scope out_scope.
Delimit Scope out_scope with out.
Notation "x <- c1 ;; c2" := (bind c1 (fun x => c2))
  (at level 61, c1 at next level, right associativity) : out_scope.
Notation "' pat <- c1 ;; c2" := (bind c1 (fun x => match x with pat => c2 end))
  (at level 61, pat pattern, c1 at next level, right associativity) : out_scope.
Notation "c1 ;; c2" := (bind c1 (fun _ => c2))
  (at level 61, right associativity) : out_scope.
Open Scope out_scope.

(** ** The functions of [index.ts] *)

Section Pipeline.

Variable w : World.

(** [getGitHubReleaseInfo]. *)
Definition getGitHubReleaseInfo (owner repo : string) : Out ReleaseInfo :=
  info "Fetch GitHub release info" ;;
  release <- call (ReposGetRelease owner repo (NumberOf (releaseId w)))
                  (repos_getRelease w owner repo (NumberOf (releaseId w))) ;;
  info "Successfully fetched release info" ;;
  ret release.

(** [getGitHubRepoInfo]. *)
Definition getGitHubRepoInfo (owner repo : string) : Out RepoInfo :=
  info "Fetch GitHub repo info" ;;
  repoInfo <- call (ReposGet owner repo) (repos_get w owner repo) ;;
  info "Successfully fetched repo info" ;;
  ret repoInfo.

(** The text [getReleaseNote] assembles in [releaseBody] before rendering. *)
Definition releaseBody (repoInfo : RepoInfo) (releaseInfo : ReleaseInfo) : string :=
  (* `${releaseInfo.data.body || ""}` *)
  let releaseBody :=
    match body releaseInfo with
    | Some b => if truthy_string b then b else ""
    | None => ""
    end in
  let releaseBody :=
    if truthy_string releaseBody then releaseBody ++ LF ++ LF ++ "---" else releaseBody in
  if negb (private repoInfo)
  then releaseBody ++ LF ++ LF ++ "*Generated from [" ++ tag_name releaseInfo ++ "]("
                   ++ html_url releaseInfo ++ ")*"
  else releaseBody.

(** [getReleaseNote]: the pair is [(html, markdown)]. *)
Definition getReleaseNote (repoInfo : RepoInfo) (releaseInfo : ReleaseInfo)
  : Out (string * string) :=
  '(owner, repo) <- call ContextRepo (context_repo w) ;;
  let releaseBody := releaseBody repoInfo releaseInfo in
  html <- call (MarkdownRender releaseBody "gfm" (owner ++ "/" ++ repo))
               (markdown_render w releaseBody "gfm" (owner ++ "/" ++ repo)) ;;
  ret (html, releaseBody).

(** The value of [f] in the test [if (f)], when it passes. *)
Definition truthy (f : option string) : option string :=
  if truthy_found f then f else None.

(** The [try { ... } catch (error) { ... }] statement of [readAppManifest],
    with the two variables it reads. *)
Definition readManifestFrom (targetFile : string) (isPlugin : bool)
  : Out (option CommonManifest) :=
  try_catch
    (zip <- call (ZipOpen targetFile) (AdmZip w targetFile) ;;
     let yamlFileName := if isPlugin then "plugin.yaml" else "theme.yaml" in
     yamlEntry <- call (ZipGetEntry targetFile yamlFileName)
                       (Ok (getEntry zip yamlFileName)) ;;
     match yamlEntry with
     | None =>
         throw (Error ((if isPlugin then "Plugin" else "Theme")
                       ++ " package does not contain " ++ yamlFileName ++ " file"))
     | Some data =>
         yamlContent <- lift data ;;
         manifest <- call (YamlParse yamlContent) (YAML_parse w yamlContent) ;;
         info "Successfully read app manifest" ;;
         spec <- lift (get_prop manifest "spec") ;;
         requires <- lift (get_prop spec "requires") ;;
         spec <- lift (get_prop manifest "spec") ;;
         version <- lift (get_prop spec "version") ;;
         ret (Some (mkManifest requires version))
     end)
    (fun error =>
       throw (Error ("Failed to read manifest file: " ++ toString error))).

(** [readAppManifest].  The declared result is [CommonManifest | undefined]:
    [None] is [undefined]. *)
Definition readAppManifest (assets : list string) : Out (option CommonManifest) :=
  info "Read app manifest" ;;
  let jarFile := find (fun file => endsWith file ".jar") assets in
  let zipFile := find (fun file => endsWith file ".zip") assets in
  '(targetFile, isPlugin) <-
    match truthy jarFile, truthy zipFile with
    | Some jarFile, _ =>
        info ("Found plugin file: " ++ jarFile) ;;
        ret (path_join w (assetsDir w) jarFile, true)
    | None, Some zipFile =>
        info ("Found theme file: " ++ zipFile) ;;
        ret (path_join w (assetsDir w) zipFile, false)
    | None, None =>
        throw (Error "No jar or zip file found in assets directory")
    end ;;
  readManifestFrom targetFile isPlugin.

Definition releases_url : string :=
  "/apis/uc.api.developer.store.kunkunyu.com/v1alpha1/applications/"
  ++ appId w ++ "/releases".

Definition upload_url : string :=
  "/apis/uc.api.developer.store.kunkunyu.com/v1alpha1/assets/-/upload".

(** A nullable string of an octokit answer, as a value. *)
Definition js_nullable (o : option string) : JsValue :=
  match o with
  | Some s => JsString s
  | None => JsNull
  end.

(** The object literal [createAppRelease] posts. *)
Definition releasePayload (release : ReleaseInfo) (html markdown : string)
    (appManifest : CommonManifest) : JsValue :=
  JsObject
    [ ("release", JsObject
        [ ("apiVersion", JsString "store.kunkunyu.com/v1alpha1");
          ("kind", JsString "Release");
          ("metadata", JsObject
             [ ("generateName", JsString "app-release-");
               ("name", JsString "") ]);
          ("spec", JsObject
             [ ("applicationName", JsString "");
               ("displayName", js_nullable (name release));
               ("draft", JsBool false);
               ("ownerName", JsString "");
               ("preRelease", JsBool (prerelease release));
               ("requires", requires appManifest);
               ("version", version appManifest);
               ("notesName", JsString "") ]) ]);
      ("notes", JsObject
        [ ("apiVersion", JsString "store.kunkunyu.com/v1alpha1");
          ("html", JsString html);
          ("kind", JsString "Content");
          ("metadata", JsObject
             [ ("generateName", JsString "app-release-notes-");
               ("name", JsString "") ]);
          ("rawType", JsString "MARKDOWN");
          ("raw", JsString markdown) ]);
      ("makeLatest", JsBool true) ].

(** [createAppRelease]; the result is [data] of the store's answer. *)
Definition createAppRelease (release : ReleaseInfo) (html markdown : string)
    (appManifest : option CommonManifest) : Out JsValue :=
  info "Create app release" ;;
  match appManifest with
  | None => throw (Error "App manifest not found")
  | Some appManifest =>
      let payload := releasePayload release html markdown appManifest in
      appRelease <- call (StorePost releases_url payload)
                         (store_post w releases_url payload) ;;
      info "Successfully created app release" ;;
      ret appRelease
  end.

(** [getAssets]. *)
Definition getAssets : Out (list string) :=
  present <- call (ExistsSync (assetsDir w)) (Ok (existsSync w (assetsDir w))) ;;
  if negb present
  then throw (Error ("Assets directory does not exist: " ++ assetsDir w))
  else
    assets <- call (ReaddirSync (assetsDir w)) (readdirSync w (assetsDir w)) ;;
    if Nat.eqb (List.length assets) 0
    then throw (Error ("Assets directory is empty: " ++ assetsDir w))
    else ret assets.

(** *** [uploadAssets]

    [assets.map(async ...)] runs each callback up to its first [await], one
    asset after the other: that issues every request.  Each callback's promise
    then settles on its own: at once when the callback threw before awaiting,
    and when the store answers otherwise. *)

Record Promise : Type := mkPromise {
  asset_of : string;
  settles : nat;            (* 0: already settled when the callback returned *)
  outcome : Result unit
}.

Definition uploadForm (releaseName : JsValue) (assetPath : string) : FormData :=
  [ ("releaseName", FormText releaseName); ("file", FormStream assetPath) ].

Definition uploadHeaders : list (string * string) :=
  [ ("Content-Type", "multipart/form-data") ].

(** The callback of [assets.map] up to its [await]: the calls it makes and
    the promise it returns. *)
Definition startUpload (releaseName : JsValue) (total index : nat) (asset : string)
  : list Event * Promise :=
  let assetPath := assetsDir w ++ "/" ++ asset in
  if negb (existsSync w assetPath)
  then ([ExistsSync assetPath],
        mkPromise asset 0 (Thrown (Error ("Asset file does not exist: " ++ assetPath))))
  else
    let formData := uploadForm releaseName assetPath in
    let answer := store_upload w upload_url formData in
    ([ExistsSync assetPath;
      Info ("Uploading file (" ++ string_of_nat (index + 1) ++ "/"
            ++ string_of_nat total ++ "): " ++ asset);
      StoreUpload upload_url formData uploadHeaders],
     mkPromise asset (S (fst answer)) (snd answer)).

Fixpoint startUploads (releaseName : JsValue) (total index : nat) (assets : list string)
  : list Event * list Promise :=
  match assets with
  | [] => ([], [])
  | asset :: rest =>
      let first := startUpload releaseName total index asset in
      let others := startUploads releaseName total (S index) rest in
      ((fst first ++ fst others)%list, snd first :: snd others)
  end.

(** The promises in the order they settle; among those that settle at the
    same moment, in the order they were made. *)
Fixpoint insert_settled (p : Promise) (settled : list Promise) : list Promise :=
  match settled with
  | [] => [p]
  | q :: rest =>
      if Nat.leb (settles p) (settles q) then p :: settled
      else q :: insert_settled p rest
  end.

Definition settle_order (promises : list Promise) : list Promise :=
  fold_right insert_settled [] promises.

(** What the callbacks that are still running log when their request is
    answered: the line after the [await]. *)
Fixpoint uploaded_logs (settled : list Promise) : list Event :=
  match settled with
  | [] => []
  | p :: rest =>
      match outcome p with
      | Ok _ => Info ("Successfully uploaded file: " ++ asset_of p) :: uploaded_logs rest
      | Thrown _ => uploaded_logs rest
      end
  end.

(** [await Promise.all(uploadPromises)], the promises given in the order
    they settle: it waits for all of them, or throws what the first rejected
    one carries and leaves the others running. *)
Fixpoint Promise_all (settled : list Promise) : Out unit :=
  match settled with
  | [] => ret tt
  | p :: rest =>
      match outcome p with
      | Ok _ =>
          info ("Successfully uploaded file: " ++ asset_of p) ;;
          Promise_all rest
      | Thrown e => mkOut [] (uploaded_logs rest) (Thrown e)
      end
  end.

Definition uploadAssets (releaseName : JsValue) (assets : list string) : Out unit :=
  info ("Uploading " ++ string_of_nat (List.length assets) ++ " assets") ;;
  let started := startUploads releaseName (List.length assets) 0 assets in
  mkOut (fst started) [] (Ok tt) ;;
  Promise_all (settle_order (snd started)) ;;
  info "All assets uploaded".

(** [run]. *)
Definition run : Out unit :=
  if negb (truthy_string (releaseId w))
  then throw (Error "Release ID not found")
  else
    '(owner, repo) <- call ContextRepo (context_repo w) ;;
    repoInfo <- getGitHubRepoInfo owner repo ;;
    releaseInfo <- getGitHubReleaseInfo owner repo ;;
    '(html, markdown) <- getReleaseNote repoInfo releaseInfo ;;
    assets <- getAssets ;;
    appManifest <- readAppManifest assets ;;
    appRelease <- createAppRelease releaseInfo html markdown appManifest ;;
    metadata <- lift (get_prop appRelease "metadata") ;;
    releaseName <- lift (get_prop metadata "name") ;;
    uploadAssets releaseName assets.

(** [run().then(...).catch(...)]: everything the action does. *)
Definition main : list Event :=
  let finished := run in
  (events finished
   ++ [ match value finished with
        | Ok _ => Info "✅ [Completed]: App release created successfully"
        | Thrown error => SetFailed ("❌ [Failed]: " ++ err_message error)
        end ]
   ++ late finished)%list.

End Pipeline.

(** ** Concrete worlds

    A run of the action on a plugin repository: the assets directory holds
    the plugin archive and one more file, every call succeeds. *)

Definition demo_manifest_text : string :=
  "spec:" ++ LF ++ "  requires: 2.0.0" ++ LF ++ "  version: 1.2.3" ++ LF.

(** A manifest whose [spec] section has neither [requires] nor [version]. *)
Definition bare_manifest_text : string :=
  "spec:" ++ LF ++ "  displayName: demo" ++ LF.

(** [YAML.parse] on the documents used below. *)
Definition demo_YAML_parse (text : string) : Result JsValue :=
  if String.eqb text demo_manifest_text then
    Ok (JsObject [("spec", JsObject [("requires", JsString "2.0.0");
                                     ("version", JsString "1.2.3")])])
  else if String.eqb text bare_manifest_text then
    Ok (JsObject [("spec", JsObject [("displayName", JsString "demo")])])
  else Thrown (mkError "YAMLParseError" "Unexpected content").

Definition demo_release : ReleaseInfo :=
  mkReleaseInfo (Some "Release 1.0") (Some "Fixed bugs") "v1.0" "https://x" false.

Definition demo_archive : Archive := [("plugin.yaml", Ok demo_manifest_text)].

Definition demo_store_answer : JsValue :=
  JsObject [("metadata", JsObject [("name", JsString "app-release-x7k2p")])].

Definition demo_world : World := {|
  appId := "app-demo";
  assetsDir := "build/libs";
  releaseId := "4242";
  context_repo := Ok ("halo-sigs", "plugin-demo");
  repos_get := fun _ _ => Ok (mkRepoInfo false);
  repos_getRelease := fun _ _ _ => Ok demo_release;
  markdown_render := fun text _ _ => Ok ("<p>" ++ text ++ "</p>");
  existsSync := fun _ => true;
  readdirSync := fun _ => Ok ["plugin-1.jar"; "checksums.txt"];
  path_join := fun dir file => dir ++ "/" ++ file;
  AdmZip := fun path =>
    if String.eqb path "build/libs/plugin-1.jar" then Ok demo_archive
    else Thrown (Error "Invalid or unsupported zip format. No END header found");
  YAML_parse := demo_YAML_parse;
  store_post := fun _ _ => Ok demo_store_answer;
  store_upload := fun _ _ => (1, Ok tt)
|}.

Definition with_inputs (w : World) (dir id : string) : World :=
  mkWorld (appId w) dir id (context_repo w) (repos_get w) (repos_getRelease w)
          (markdown_render w) (existsSync w) (readdirSync w) (path_join w)
          (AdmZip w) (YAML_parse w) (store_post w) (store_upload w).

Definition with_files (w : World) (present : string -> bool)
    (listing : Result (list string)) : World :=
  mkWorld (appId w) (assetsDir w) (releaseId w) (context_repo w) (repos_get w)
          (repos_getRelease w) (markdown_render w) present (fun _ => listing)
          (path_join w) (AdmZip w) (YAML_parse w) (store_post w) (store_upload w).

Definition with_archives (w : World) (open : string -> Result Archive) : World :=
  mkWorld (appId w) (assetsDir w) (releaseId w) (context_repo w) (repos_get w)
          (repos_getRelease w) (markdown_render w) (existsSync w) (readdirSync w)
          (path_join w) open (YAML_parse w) (store_post w) (store_upload w).

Definition with_uploads (w : World) (answer : string -> FormData -> nat * Result unit)
  : World :=
  mkWorld (appId w) (assetsDir w) (releaseId w) (context_repo w) (repos_get w)
          (repos_getRelease w) (markdown_render w) (existsSync w) (readdirSync w)
          (path_join w) (AdmZip w) (YAML_parse w) (store_post w) answer.

(** ** Predicates on traces *)

(** The calls that go over the network. *)
Definition is_network (ev : Event) : bool :=
  match ev with
  | ReposGet _ _ | ReposGetRelease _ _ _ | MarkdownRender _ _ _
  | StorePost _ _ | StoreUpload _ _ _ => true
  | _ => false
  end.

(** The calls to the store API. *)
Definition is_store_call (ev : Event) : bool :=
  match ev with
  | StorePost _ _ | StoreUpload _ _ _ => true
  | _ => false
  end.

(** What manifest extraction does: its opening log line and its calls on the
    archive and on the manifest. *)
Definition is_extraction (ev : Event) : bool :=
  match ev with
  | Info message => String.eqb message "Read app manifest"
  | ZipOpen _ | ZipGetEntry _ _ | YamlParse _ => true
  | _ => false
  end.

(** The log line on which [createAppRelease] starts. *)
Definition is_create (ev : Event) : bool :=
  match ev with
  | Info message => String.eqb message "Create app release"
  | _ => false
  end.

(** The requests that upload a file. *)
Definition is_upload (ev : Event) : bool :=
  match ev with
  | StoreUpload _ _ _ => true
  | _ => false
  end.

(** The two tests of [readAppManifest] on a file name. *)
Definition is_jar (file : string) : bool := endsWith file ".jar".
Definition is_zip (file : string) : bool := endsWith file ".zip".

(** The number of files of a listing with one of the two extensions. *)
Definition count_packages (assets : list string) : nat :=
  List.length (filter (fun file => is_jar file || is_zip file) assets).

(** [needle] occurs in [s]. *)
Fixpoint includes (s needle : string) : bool :=
  if prefix needle s then true
  else match s with
       | EmptyString => false
       | String _ rest => includes rest needle
       end.

(** ** Vocabulary of the statements *)

(** The markdown of a release note, as the specification words it: the body
    (empty when null), a separator when the body is not empty, an attribution
    when the repository is not private. *)
Definition note_markdown (repoInfo : RepoInfo) (releaseInfo : ReleaseInfo) : string :=
  let text := match body releaseInfo with Some s => s | None => "" end in
  text
  ++ (if String.eqb text "" then "" else LF ++ LF ++ "---")
  ++ (if private repoInfo then ""
      else LF ++ LF ++ "*Generated from [" ++ tag_name releaseInfo ++ "]("
           ++ html_url releaseInfo ++ ")*").

(** [file] is the file [readAppManifest] takes from the listing, as a plugin
    ([isPlugin]) or as a theme. *)
Definition picked (assets : list string) (file : string) (isPlugin : bool) : Prop :=
  if isPlugin
  then find (fun file => endsWith file ".jar") assets = Some file
  else find (fun file => endsWith file ".jar") assets = None
       /\ find (fun file => endsWith file ".zip") assets = Some file.

(** [readAppManifest] reads [file] as a package of the given kind: it announces
    the file, opens it as an archive and, once open, looks up [yamlFileName]
    in it. *)
Definition selects (w : World) (assets : list string) (kind file yamlFileName : string)
  : Prop :=
  let targetFile := path_join w (assetsDir w) file in
  exists rest,
    events (readAppManifest w assets)
    = Info "Read app manifest" :: Info ("Found " ++ kind ++ " file: " ++ file)
      :: ZipOpen targetFile :: rest
    /\ (forall zip, AdmZip w targetFile = Ok zip ->
        exists rest', rest = ZipGetEntry targetFile yamlFileName :: rest').

(** [undefined] and [null], the values no property can be read from. *)
Definition nullish (v : JsValue) : bool :=
  match v with
  | JsUndefined | JsNull => true
  | _ => false
  end.

(** The value of property [k] of a value that is not nullish: [undefined]
    when it has no such property. *)
Definition property (v : JsValue) (k : string) : JsValue :=
  match v with
  | JsObject fields =>
      match lookup_field k fields with
      | Some x => x
      | None => JsUndefined
      end
  | _ => JsUndefined
  end.

(** What the [try] block of [readAppManifest] computes from the text of the
    manifest entry. *)
Definition manifest_of_text (w : World) (text : string) : Result (option CommonManifest) :=
  match YAML_parse w text with
  | Thrown e => Thrown e
  | Ok manifest =>
      match get_prop manifest "spec" with
      | Thrown e => Thrown e
      | Ok spec =>
          match get_prop spec "requires", get_prop spec "version" with
          | Ok r, Ok v => Ok (Some (mkManifest r v))
          | Thrown e, _ => Thrown e
          | Ok _, Thrown e => Thrown e
          end
      end
  end.

(** The demo world with the archive holding [text] as its [plugin.yaml]. *)
Definition with_manifest (w : World) (text : string) : World :=
  with_archives w (fun _ => Ok [("plugin.yaml", Ok text)]).

(** The promise the callback of [assets.map] returns for [asset]; it is the
    same wherever the asset stands in the listing. *)
Definition promiseOf (w : World) (releaseName : JsValue) (asset : string) : Promise :=
  snd (startUpload w releaseName 0 0 asset).

(** The request that uploads [asset]. *)
Definition uploadOf (w : World) (releaseName : JsValue) (asset : string) : Event :=
  StoreUpload upload_url (uploadForm releaseName (assetsDir w ++ "/" ++ asset))
              uploadHeaders.

(** What may not happen before the release is created: a call to the store,
    a step of manifest extraction, the start of [createAppRelease]. *)
Definition is_late_stage (ev : Event) : bool :=
  is_store_call ev || is_extraction ev || is_create ev.

(** What manifest extraction does not do: call the store, start
    [createAppRelease]. *)
Definition is_release_stage (ev : Event) : bool := is_store_call ev || is_create ev.

(** The release and its note are there: the release identifier is given and
    the repository, the release and the rendered note were fetched. *)
Definition fetched (w : World) (releaseInfo : ReleaseInfo) (html markdown : string)
  : Prop :=
  releaseId w <> ""
  /\ exists owner repo repoInfo,
       context_repo w = Ok (owner, repo)
       /\ repos_get w owner repo = Ok repoInfo
       /\ repos_getRelease w owner repo (NumberOf (releaseId w)) = Ok releaseInfo
       /\ markdown = releaseBody repoInfo releaseInfo
       /\ markdown_render w markdown "gfm" (owner ++ "/" ++ repo) = Ok html.

(** What [run] does once the release note is there. *)
Definition publish (w : World) (releaseInfo : ReleaseInfo) (html markdown : string)
  : Out unit :=
  assets <- getAssets w ;;
  appManifest <- readAppManifest w assets ;;
  appRelease <- createAppRelease w releaseInfo html markdown appManifest ;;
  metadata <- lift (get_prop appRelease "metadata") ;;
  releaseName <- lift (get_prop metadata "name") ;;
  uploadAssets w releaseName assets.

(** A computation that fails before anything of the later stages happened. *)
Definition fails_early {A} (o : Out A) : Prop :=
  filter is_late_stage (events o) = [] /\ late o = [] /\ is_ok (value o) = false.

(** The assets directory is missing, or its listing is empty. *)
Definition assets_unavailable (w : World) : Prop :=
  existsSync w (assetsDir w) = false \/ readdirSync w (assetsDir w) = Ok [].

(** The demo world without its assets directory. *)
Definition no_assets_world : World :=
  with_files demo_world (fun _ => false) (Thrown (Error "ENOENT: no such file or directory")).

(** Either [createAppRelease] was not started, or the release was posted. *)
Definition posts_if_started {A} (w : World) (o : Out A) : Prop :=
  filter is_create (events o) = []
  \/ exists payload, In (StorePost (releases_url w) payload) (events o).

(** The release was created: the note was fetched, the listing [assets] was
    read, a manifest was extracted, the store answered the creation request
    and its answer has [releaseName] at [metadata.name]. *)
Definition released (w : World) (releaseName : JsValue) (assets : list string) : Prop :=
  exists releaseInfo html markdown appManifest appRelease metadata,
    fetched w releaseInfo html markdown
    /\ value (getAssets w) = Ok assets
    /\ value (readAppManifest w assets) = Ok (Some appManifest)
    /\ store_post w (releases_url w)
                  (releasePayload releaseInfo html markdown appManifest)
       = Ok appRelease
    /\ get_prop appRelease "metadata" = Ok metadata
    /\ get_prop metadata "name" = Ok releaseName.

(** [ev] is a request that uploads the file at [path]. *)
Definition uploads_file (path : string) (ev : Event) : bool :=
  match ev with
  | StoreUpload _ form _ =>
      existsb (fun field => match snd field with
                            | FormStream p => String.eqb p path
                            | FormText _ => false
                            end) form
  | _ => false
  end.

(** The demo world where the store rejects the upload of [checksums.txt],
    before it accepts that of the archive. *)
Definition rejecting_world : World :=
  with_uploads demo_world
    (fun _ form =>
       if uploads_file "build/libs/checksums.txt" (StoreUpload upload_url form [])
       then (2, Thrown (mkError "AxiosError" "Request failed with status code 500"))
       else (5, Ok tt)).

(** The demo world where [checksums.txt] is gone when it is to be uploaded. *)
Definition vanished_world : World :=
  with_files demo_world
    (fun path => negb (String.eqb path "build/libs/checksums.txt"))
    (Ok ["plugin-1.jar"; "checksums.txt"]).

(** ** Vocabulary of the further properties *)

(** The calls on the local file system and on the archive. *)
Definition is_local (ev : Event) : bool :=
  match ev with
  | ExistsSync _ | ReaddirSync _ | ZipOpen _ | ZipGetEntry _ _ | YamlParse _ => true
  | _ => false
  end.

(** The request that creates the release. *)
Definition is_post (ev : Event) : bool :=
  match ev with
  | StorePost _ _ => true
  | _ => false
  end.

(** The two ways the action reports its outcome: the completion notice of
    the [then] handler and the [setFailed] of the [catch] handler. *)
Definition is_report (ev : Event) : bool :=
  match ev with
  | SetFailed _ => true
  | Info message =>
      String.eqb message "✅ [Completed]: App release created successfully"
  | _ => false
  end.

(** Nothing that [P] recognises happens in [o], neither before it ends nor
    after. *)
Definition silent (P : Event -> bool) {A} (o : Out A) : Prop :=
  filter P (events o) = [] /\ filter P (late o) = [].

(** [o] fails, leaves nothing running, and nothing that [Q] recognises
    happened. *)
Definition stops_quietly (Q : Event -> bool) {A} (o : Out A) : Prop :=
  filter Q (events o) = [] /\ late o = [] /\ is_ok (value o) = false.

(** What [run] does once the manifest is read. *)
Definition finish (w : World) (releaseInfo : ReleaseInfo) (html markdown : string)
    (assets : list string) (appManifest : option CommonManifest) : Out unit :=
  appRelease <- createAppRelease w releaseInfo html markdown appManifest ;;
  metadata <- lift (get_prop appRelease "metadata") ;;
  releaseName <- lift (get_prop metadata "name") ;;
  uploadAssets w releaseName assets.

(** The asset is on disk when its upload starts. *)
Definition present (w : World) (asset : string) : bool :=
  existsSync w (assetsDir w ++ "/" ++ asset).

(** The store accepts the upload of the asset. *)
Definition accepted (w : World) (releaseName : JsValue) (asset : string) : bool :=
  is_ok (snd (store_upload w upload_url
                (uploadForm releaseName (assetsDir w ++ "/" ++ asset)))).

(** The line an upload logs once the store accepted it. *)
Definition uploaded_line (asset : string) : Event :=
  Info ("Successfully uploaded file: " ++ asset).

(** The line an upload logs when it starts, [index] counted from 0. *)
Definition uploading_line (index total : nat) (asset : string) : Event :=
  Info ("Uploading file (" ++ string_of_nat (index + 1) ++ "/"
        ++ string_of_nat total ++ "): " ++ asset).

Definition with_github (w : World)
    (get : string -> string -> Result RepoInfo)
    (getRelease : string -> string -> JsNum -> Result ReleaseInfo)
    (render : string -> string -> string -> Result string) : World :=
  mkWorld (appId w) (assetsDir w) (releaseId w) (context_repo w) get getRelease render
          (existsSync w) (readdirSync w) (path_join w) (AdmZip w) (YAML_parse w)
          (store_post w) (store_upload w).

Definition with_store (w : World) (answer : string -> JsValue -> Result JsValue) : World :=
  mkWorld (appId w) (assetsDir w) (releaseId w) (context_repo w) (repos_get w)
          (repos_getRelease w) (markdown_render w) (existsSync w) (readdirSync w)
          (path_join w) (AdmZip w) (YAML_parse w) answer (store_upload w).

(** The demo world with an archive that has no entry. *)
Definition empty_archive_world : World := with_archives demo_world (fun _ => Ok []).

(** The demo world with an archive that cannot be opened. *)
Definition broken_archive_world : World :=
  with_archives demo_world
    (fun _ => Thrown (Error "Invalid or unsupported zip format. No END header found")).

(** The demo world where GitHub does not find the repository, and the one
    where it does not find the release. *)
Definition repo_failing_world : World :=
  with_github demo_world (fun _ _ => Thrown (mkError "HttpError" "Not Found"))
              (repos_getRelease demo_world) (markdown_render demo_world).

Definition release_failing_world : World :=
  with_github demo_world (repos_get demo_world)
              (fun _ _ _ => Thrown (mkError "HttpError" "Not Found"))
              (markdown_render demo_world).

(** The demo world whose assets directory is a file, not a directory. *)
Definition not_a_directory_world : World :=
  with_files demo_world (fun _ => true)
             (Thrown (Error "ENOTDIR: not a directory, scandir 'build/libs'")).

(** The demo world where the store answers the creation request with an
    object that has no [metadata]. *)
Definition bare_answer_world : World :=
  with_store demo_world (fun _ _ => Ok (JsObject [("status", JsString "created")])).

(** The demo world where [plugin-1.jar] is gone when it is to be uploaded and
    the store rejects every upload. *)
Definition vanished_and_rejecting_world : World :=
  with_uploads
    (with_files demo_world
       (fun path => negb (String.eqb path "build/libs/plugin-1.jar"))
       (Ok ["checksums.txt"; "plugin-1.jar"; "notes.md"]))
    (fun _ _ => (0, Thrown (mkError "AxiosError" "Request failed with status code 500"))).

(** A manifest without a [spec] section, and the demo world with it as the
    [plugin.yaml] of the archive. *)
Definition specless_manifest_text : string := "name: demo" ++ LF.

Definition specless_world : World :=
  mkWorld (appId demo_world) (assetsDir demo_world) (releaseId demo_world)
          (context_repo demo_world) (repos_get demo_world) (repos_getRelease demo_world)
          (markdown_render demo_world) (existsSync demo_world) (readdirSync demo_world)
          (path_join demo_world)
          (fun _ => Ok [("plugin.yaml", Ok specless_manifest_text)])
          (fun text =>
             if String.eqb text specless_manifest_text
             then Ok (JsObject [("name", JsString "demo")])
             else demo_YAML_parse text)
          (store_post demo_world) (store_upload demo_world).

(** ** Basic facts *)

Lemma string_app_nil_r (s : string) : s ++ "" = s.
Proof. induction s as [|c s IH]; simpl; [reflexivity | now rewrite IH]. Qed.

Lemma string_app_assoc (a b c : string) : (a ++ b) ++ c = a ++ (b ++ c).
Proof. induction a as [|x a IH]; simpl; [reflexivity | now rewrite IH]. Qed.

Lemma value_bind {A B} (m : Out A) (k : A -> Out B) :
  value (bind m k) =
  match value m with
  | Ok a => value (k a)
  | Thrown e => Thrown e
  end.
Proof. unfold bind. destruct (value m); reflexivity. Qed.

Lemma events_bind {A B} (m : Out A) (k : A -> Out B) :
  events (bind m k) =
  (events m ++ match value m with
               | Ok a => events (k a)
               | Thrown _ => []
               end)%list.
Proof.
  unfold bind. destruct (value m); simpl; [reflexivity | now rewrite app_nil_r].
Qed.

Lemma late_bind {A B} (m : Out A) (k : A -> Out B) :
  late (bind m k) =
  (late m ++ match value m with
             | Ok a => late (k a)
             | Thrown _ => []
             end)%list.
Proof.
  unfold bind. destruct (value m); simpl; [reflexivity | now rewrite app_nil_r].
Qed.

Lemma value_try_catch {A} (m : Out A) (handler : JsError -> Out A) :
  value (try_catch m handler) =
  match value m with
  | Ok a => Ok a
  | Thrown e => value (handler e)
  end.
Proof. unfold try_catch. destruct (value m) eqn:H; [exact H | reflexivity]. Qed.

Lemma events_try_catch {A} (m : Out A) (handler : JsError -> Out A) :
  events (try_catch m handler) =
  (events m ++ match value m with
               | Ok _ => []
               | Thrown e => events (handler e)
               end)%list.
Proof.
  unfold try_catch. destruct (value m); simpl; [now rewrite app_nil_r | reflexivity].
Qed.

Lemma late_try_catch {A} (m : Out A) (handler : JsError -> Out A) :
  late (try_catch m handler) =
  (late m ++ match value m with
             | Ok _ => []
             | Thrown e => late (handler e)
             end)%list.
Proof.
  unfold try_catch. destruct (value m); simpl; [now rewrite app_nil_r | reflexivity].
Qed.

Lemma bind_ok {A B} (m : Out A) (a : A) (k : A -> Out B) :
  value m = Ok a ->
  bind m k = mkOut (events m ++ events (k a)) (late m ++ late (k a)) (value (k a)).
Proof. intros H. unfold bind. now rewrite H. Qed.

Lemma bind_thrown {A B} (m : Out A) (e : JsError) (k : A -> Out B) :
  value m = Thrown e ->
  bind m k = mkOut (events m) (late m) (Thrown e).
Proof. intros H. unfold bind. now rewrite H. Qed.

(** ** Release notes *)

Lemma releaseBody_note_markdown (repoInfo : RepoInfo) (releaseInfo : ReleaseInfo) :
  releaseBody repoInfo releaseInfo = note_markdown repoInfo releaseInfo.
Proof.
  unfold releaseBody, note_markdown.
  destruct (body releaseInfo) as [b|]; destruct (private repoInfo);
    cbv beta iota zeta; try reflexivity;
    unfold truthy_string;
    destruct (String.eqb_spec b "") as [->|Hb]; try reflexivity;
    cbv beta iota zeta; unfold negb;
    destruct (String.eqb_spec b "") as [|_]; try contradiction;
    rewrite ?string_app_assoc, ?string_app_nil_r; reflexivity.
Qed.

(** C3: the markdown [getReleaseNote] assembles, gives to the renderer and
    returns is the release body (empty when null), then the separator line
    when the body is not empty, then the attribution line exactly when the
    repository is not private; with the two examples of the specification. *)
Theorem C3_release_note_markdown :
  forall (w : World) (repoInfo : RepoInfo) (releaseInfo : ReleaseInfo),
    releaseBody repoInfo releaseInfo = note_markdown repoInfo releaseInfo
    /\ (forall html markdown,
          value (getReleaseNote w repoInfo releaseInfo) = Ok (html, markdown) ->
          markdown = note_markdown repoInfo releaseInfo
          /\ exists context,
               In (MarkdownRender markdown "gfm" context)
                  (events (getReleaseNote w repoInfo releaseInfo)))
    /\ (forall title tag url pre,
          releaseBody (mkRepoInfo true) (mkReleaseInfo title (Some "") tag url pre) = "")
    /\ (forall title pre,
          releaseBody (mkRepoInfo false)
                      (mkReleaseInfo title (Some "Fixed bugs") "v1.0" "https://x" pre)
          = "Fixed bugs" ++ LF ++ LF ++ "---" ++ LF ++ LF
            ++ "*Generated from [v1.0](https://x)*").
Proof.
  intros w repoInfo releaseInfo.
  split; [apply releaseBody_note_markdown|].
  split; [|split; reflexivity].
  intros html markdown.
  rewrite <- releaseBody_note_markdown.
  unfold getReleaseNote, bind, call; simpl.
  destruct (context_repo w) as [[owner repo]|e]; simpl; [|discriminate].
  destruct (markdown_render w _ _ _) as [h|e]; simpl; [|discriminate].
  intros H. injection H as _ <-.
  split; [reflexivity|].
  exists (owner ++ "/" ++ repo). right; left; reflexivity.
Qed.

Lemma C3_release_note_markdown_witness :
  value (getReleaseNote demo_world (mkRepoInfo false) demo_release)
  = Ok ("<p>" ++ note_markdown (mkRepoInfo false) demo_release ++ "</p>",
        note_markdown (mkRepoInfo false) demo_release)
  /\ note_markdown (mkRepoInfo false) demo_release
     = note_markdown (mkRepoInfo false) demo_release.
Proof.
  split; [reflexivity|].
  exact (proj1 (proj1 (proj2 (C3_release_note_markdown demo_world (mkRepoInfo false)
                                demo_release))
                 _ _ eq_refl)).
Defined.

(** ** The release identifier *)

(** C8: when the [release-id] input is empty (which is also what reading an
    absent input gives), [run] throws "Release ID not found" at once: the
    only thing the action does is to report that failure, and no call goes
    over the network. *)
Theorem C8_missing_release_id :
  forall w : World,
    releaseId w = "" ->
    run w = throw (Error "Release ID not found")
    /\ main w = [SetFailed "❌ [Failed]: Release ID not found"]
    /\ filter is_network (main w) = [].
Proof.
  intros w H.
  assert (Hrun : run w = throw (Error "Release ID not found")).
  { unfold run. rewrite H. reflexivity. }
  split; [exact Hrun|].
  unfold main. rewrite Hrun. simpl. split; reflexivity.
Qed.

Lemma C8_missing_release_id_witness :
  releaseId (with_inputs demo_world "build/libs" "") = ""
  /\ main (with_inputs demo_world "build/libs" "")
     = [SetFailed "❌ [Failed]: Release ID not found"].
Proof.
  split; [reflexivity|].
  exact (proj1 (proj2 (C8_missing_release_id (with_inputs demo_world "build/libs" "")
                         eq_refl))).
Defined.

(** ** Manifest extraction: which file is read *)

Lemma endsWith_truthy (s suffix : string) :
  suffix <> "" -> endsWith s suffix = true -> truthy_string s = true.
Proof.
  intros Hs H. destruct s as [|c s]; [|reflexivity].
  unfold endsWith in H. destruct suffix as [|d t]; [contradiction|].
  simpl in H. discriminate.
Qed.

Lemma truthy_find (suffix : string) (assets : list string) :
  suffix <> "" ->
  truthy (find (fun file => endsWith file suffix) assets)
  = find (fun file => endsWith file suffix) assets.
Proof.
  intros Hs. unfold truthy, truthy_found.
  destruct (find _ assets) as [f|] eqn:Hf; [|reflexivity].
  apply find_some in Hf. destruct Hf as [_ Hf].
  now rewrite (endsWith_truthy f suffix Hs Hf).
Qed.

Lemma find_present {A} (p : A -> bool) (l : list A) :
  (exists x, In x l /\ p x = true) -> exists y, find p l = Some y.
Proof.
  intros [x [Hin Hp]]. destruct (find p l) as [y|] eqn:Hf; [now exists y|].
  now rewrite (find_none p l Hf x Hin) in Hp.
Qed.

Lemma find_absent {A} (p : A -> bool) (l : list A) :
  (forall x, In x l -> p x = false) -> find p l = None.
Proof.
  intros H. destruct (find p l) as [y|] eqn:Hf; [|reflexivity].
  apply find_some in Hf. destruct Hf as [Hin Hp]. now rewrite (H y Hin) in Hp.
Qed.

Lemma readAppManifest_picked (w : World) (assets : list string) (file : string)
    (isPlugin : bool) :
  picked assets file isPlugin ->
  readAppManifest w assets =
  (info "Read app manifest" ;;
   info ("Found " ++ (if isPlugin then "plugin" else "theme") ++ " file: " ++ file) ;;
   readManifestFrom w (path_join w (assetsDir w) file) isPlugin).
Proof.
  unfold picked, readAppManifest. intros H.
  rewrite !truthy_find by discriminate.
  destruct isPlugin.
  - rewrite H. reflexivity.
  - destruct H as [Hj Hz]. rewrite Hj, Hz. reflexivity.
Qed.

Lemma readAppManifest_none (w : World) (assets : list string) :
  find (fun file => endsWith file ".jar") assets = None ->
  find (fun file => endsWith file ".zip") assets = None ->
  readAppManifest w assets =
  mkOut [Info "Read app manifest"] []
        (Thrown (Error "No jar or zip file found in assets directory")).
Proof.
  unfold readAppManifest. intros Hj Hz.
  rewrite !truthy_find by discriminate. rewrite Hj, Hz. reflexivity.
Qed.

(** The listing has a file that [readAppManifest] takes, or none with either
    extension. *)
Lemma picked_or_none (assets : list string) :
  (exists file isPlugin, picked assets file isPlugin)
  \/ (find (fun file => endsWith file ".jar") assets = None
      /\ find (fun file => endsWith file ".zip") assets = None).
Proof.
  destruct (find (fun file => endsWith file ".jar") assets) as [jar|] eqn:Hj.
  - left. exists jar, true. exact Hj.
  - destruct (find (fun file => endsWith file ".zip") assets) as [zip|] eqn:Hz.
    + left. exists zip, false. split; assumption.
    + right. split; reflexivity.
Qed.

Lemma events_readManifestFrom (w : World) (targetFile : string) (isPlugin : bool) :
  exists rest,
    events (readManifestFrom w targetFile isPlugin) = ZipOpen targetFile :: rest
    /\ (forall zip, AdmZip w targetFile = Ok zip ->
        exists rest',
          rest = ZipGetEntry targetFile (if isPlugin then "plugin.yaml" else "theme.yaml")
                 :: rest').
Proof.
  unfold readManifestFrom. rewrite events_try_catch, events_bind.
  unfold call at 1 2. cbn [events value app].
  eexists. split; [reflexivity|].
  intros zip Hzip. rewrite Hzip, events_bind. unfold call at 1 2.
  cbn [events value app]. eexists. reflexivity.
Qed.

Lemma picked_selects (w : World) (assets : list string) (file : string)
    (isPlugin : bool) :
  picked assets file isPlugin ->
  selects w assets (if isPlugin then "plugin" else "theme") file
          (if isPlugin then "plugin.yaml" else "theme.yaml").
Proof.
  intros H. unfold selects. rewrite (readAppManifest_picked w assets file isPlugin H).
  destruct (events_readManifestFrom w (path_join w (assetsDir w) file) isPlugin)
    as [rest [Hev Hrest]].
  exists rest. split; [|exact Hrest].
  rewrite !events_bind. cbn. now rewrite Hev.
Qed.

(** C1: when the listing has a file ending in [.jar], the first such file is
    read, as a plugin, with [plugin.yaml] looked up in it, whether or not
    there is a [.zip] as well; when it has none and has a file ending in
    [.zip], the first such file is read, as a theme, with [theme.yaml]. *)
Theorem C1_plugin_precedence :
  forall (w : World) (assets : list string),
    ((exists f, In f assets /\ endsWith f ".jar" = true) ->
     exists jar,
       In jar assets /\ endsWith jar ".jar" = true
       /\ find (fun file => endsWith file ".jar") assets = Some jar
       /\ selects w assets "plugin" jar "plugin.yaml")
    /\ ((forall f, In f assets -> endsWith f ".jar" = false) ->
        (exists f, In f assets /\ endsWith f ".zip" = true) ->
        exists zip,
          In zip assets /\ endsWith zip ".zip" = true
          /\ find (fun file => endsWith file ".zip") assets = Some zip
          /\ selects w assets "theme" zip "theme.yaml").
Proof.
  intros w assets. split.
  - intros Hjar.
    destruct (find_present (fun file => endsWith file ".jar") assets Hjar) as [jar Hf].
    exists jar. destruct (find_some _ _ Hf) as [Hin Hend].
    repeat split; try assumption.
    exact (picked_selects w assets jar true Hf).
  - intros Hno Hzip.
    destruct (find_present (fun file => endsWith file ".zip") assets Hzip) as [zip Hf].
    exists zip. destruct (find_some _ _ Hf) as [Hin Hend].
    repeat split; try assumption.
    apply (picked_selects w assets zip false). split; [|exact Hf].
    now apply find_absent.
Qed.

Lemma C1_plugin_precedence_witness :
  (exists jar,
     In jar ["theme-1.zip"; "plugin-1.jar"] /\ endsWith jar ".jar" = true
     /\ find (fun file => endsWith file ".jar") ["theme-1.zip"; "plugin-1.jar"] = Some jar
     /\ selects demo_world ["theme-1.zip"; "plugin-1.jar"] "plugin" jar "plugin.yaml")
  /\ (exists zip,
        In zip ["theme-1.zip"; "notes.md"] /\ endsWith zip ".zip" = true
        /\ find (fun file => endsWith file ".zip") ["theme-1.zip"; "notes.md"] = Some zip
        /\ selects demo_world ["theme-1.zip"; "notes.md"] "theme" zip "theme.yaml").
Proof.
  split.
  - apply (proj1 (C1_plugin_precedence demo_world ["theme-1.zip"; "plugin-1.jar"])).
    exists "plugin-1.jar". split; [right; left; reflexivity | reflexivity].
  - apply (proj2 (C1_plugin_precedence demo_world ["theme-1.zip"; "notes.md"])).
    + intros f [<-|[<-|[]]]; reflexivity.
    + exists "theme-1.zip". split; [left; reflexivity | reflexivity].
Defined.

(** ** Manifest extraction: how many packages the listing may hold *)


Lemma picked_counts (assets : list string) (file : string) (isPlugin : bool) :
  picked assets file isPlugin -> In file assets /\ 1 <= count_packages assets.
Proof.
  intros H.
  assert (Hin : In file assets /\ is_jar file || is_zip file = true).
  { destruct isPlugin; simpl in H.
    - apply find_some in H. destruct H as [Hin Hp]. split; [exact Hin|].
      unfold is_jar. now rewrite Hp.
    - destruct H as [_ H]. apply find_some in H. destruct H as [Hin Hp].
      split; [exact Hin|]. unfold is_zip. rewrite Hp. apply orb_true_r. }
  destruct Hin as [Hin Hp]. split; [exact Hin|].
  unfold count_packages.
  assert (Hf : In file (filter (fun file => is_jar file || is_zip file) assets))
    by (apply filter_In; split; assumption).
  destruct (filter _ assets); [destruct Hf | simpl; lia].
Qed.




(** ** Manifest extraction: what is read from the manifest *)

Lemma get_prop_property (v : JsValue) (k : string) :
  nullish v = false -> get_prop v k = Ok (property v k).
Proof.
  destruct v; simpl; try discriminate; try reflexivity.
  intros _. destruct (lookup_field k fields); reflexivity.
Qed.

Lemma get_prop_nullish (v : JsValue) (k : string) :
  nullish v = true ->
  get_prop v k = Thrown (TypeError ("Cannot read properties of " ++ describe v
                                    ++ " (reading '" ++ k ++ "')")).
Proof. destruct v; simpl; try discriminate; reflexivity. Qed.

Lemma value_readManifestFrom (w : World) (targetFile : string) (isPlugin : bool)
    (zip : Archive) (text : string) :
  AdmZip w targetFile = Ok zip ->
  getEntry zip (if isPlugin then "plugin.yaml" else "theme.yaml") = Some (Ok text) ->
  value (readManifestFrom w targetFile isPlugin) =
  match manifest_of_text w text with
  | Ok m => Ok m
  | Thrown e => Thrown (Error ("Failed to read manifest file: " ++ toString e))
  end.
Proof.
  intros Hzip Hentry. unfold readManifestFrom, manifest_of_text.
  rewrite value_try_catch, value_bind. unfold call at 1. cbn [value].
  rewrite Hzip, value_bind. unfold call at 1. cbn [value]. rewrite Hentry.
  rewrite value_bind. unfold lift at 1. cbn [value].
  rewrite value_bind. unfold call at 1. cbn [value].
  destruct (YAML_parse w text) as [manifest|e]; [|reflexivity].
  rewrite value_bind. unfold info, call. cbn [value].
  rewrite value_bind. unfold lift at 1. cbn [value].
  destruct (get_prop manifest "spec") as [spec|e]; [|reflexivity].
  rewrite value_bind. unfold lift at 1. cbn [value].
  destruct (get_prop spec "requires") as [r|e]; [|reflexivity].
  rewrite value_bind. unfold lift at 1. cbn [value].
  rewrite value_bind. unfold lift at 1. cbn [value].
  destruct (get_prop spec "version") as [v|e]; reflexivity.
Qed.

Lemma value_readAppManifest_picked (w : World) (assets : list string) (file : string)
    (isPlugin : bool) :
  picked assets file isPlugin ->
  value (readAppManifest w assets)
  = value (readManifestFrom w (path_join w (assetsDir w) file) isPlugin).
Proof.
  intros H. rewrite (readAppManifest_picked w assets file isPlugin H).
  rewrite !value_bind. reflexivity.
Qed.

(** C4, as the code has it.  When the manifest entry of the archive that is
    read is present and decodes to [text]: extraction fails, with a message
    that starts "Failed to read manifest file: ", when [text] does not parse,
    and when the parsed document, or its [spec], is [undefined] or [null];
    in every other case it succeeds and returns the values of [spec.requires]
    and [spec.version] as they are in the document, which is [undefined] for
    a field that is absent. *)
Theorem C4_manifest_fields :
  forall (w : World) (assets : list string) (file : string) (isPlugin : bool)
         (zip : Archive) (text : string),
    picked assets file isPlugin ->
    AdmZip w (path_join w (assetsDir w) file) = Ok zip ->
    getEntry zip (if isPlugin then "plugin.yaml" else "theme.yaml") = Some (Ok text) ->
    (forall e,
        YAML_parse w text = Thrown e ->
        value (readAppManifest w assets)
        = Thrown (Error ("Failed to read manifest file: " ++ toString e)))
    /\ (forall manifest,
          YAML_parse w text = Ok manifest ->
          nullish manifest || nullish (property manifest "spec") = true ->
          exists what,
            value (readAppManifest w assets)
            = Thrown (Error ("Failed to read manifest file: "
                             ++ toString (TypeError what))))
    /\ (forall manifest,
          YAML_parse w text = Ok manifest ->
          nullish manifest || nullish (property manifest "spec") = false ->
          value (readAppManifest w assets)
          = Ok (Some (mkManifest (property (property manifest "spec") "requires")
                                 (property (property manifest "spec") "version")))).
Proof.
  intros w assets file isPlugin zip text Hp Hzip Hentry.
  rewrite (value_readAppManifest_picked w assets file isPlugin Hp).
  rewrite (value_readManifestFrom w _ isPlugin zip text Hzip Hentry).
  unfold manifest_of_text. repeat split.
  - intros e ->. reflexivity.
  - intros manifest -> Hn. apply orb_true_iff in Hn.
    destruct (nullish manifest) eqn:Hm.
    + rewrite (get_prop_nullish manifest "spec" Hm). eexists. reflexivity.
    + destruct Hn as [Hn|Hn]; [discriminate|].
      rewrite (get_prop_property manifest "spec" Hm).
      rewrite (get_prop_nullish _ "requires" Hn). eexists. reflexivity.
  - intros manifest -> Hn. apply orb_false_elim in Hn. destruct Hn as [Hm Hs].
    rewrite (get_prop_property manifest "spec" Hm).
    rewrite (get_prop_property _ "requires" Hs), (get_prop_property _ "version" Hs).
    reflexivity.
Qed.

Lemma C4_manifest_fields_witness :
  value (readAppManifest (with_manifest demo_world demo_manifest_text) ["plugin-1.jar"])
  = Ok (Some (mkManifest (JsString "2.0.0") (JsString "1.2.3"))).
Proof.
  exact (proj2 (proj2 (C4_manifest_fields
                         (with_manifest demo_world demo_manifest_text)
                         ["plugin-1.jar"] "plugin-1.jar" true
                         [("plugin.yaml", Ok demo_manifest_text)] demo_manifest_text
                         eq_refl eq_refl eq_refl))
           (JsObject [("spec", JsObject [("requires", JsString "2.0.0");
                                         ("version", JsString "1.2.3")])])
           eq_refl eq_refl).
Defined.

(** C4 as the specification has it fails: the manifest parses, its [spec] has
    neither [requires] nor [version], and extraction succeeds, returning
    [undefined] for both. *)
Lemma C4_counterexample :
  let w := with_manifest demo_world bare_manifest_text in
  AdmZip w (path_join w (assetsDir w) "plugin-1.jar")
  = Ok [("plugin.yaml", Ok bare_manifest_text)]
  /\ YAML_parse w bare_manifest_text
     = Ok (JsObject [("spec", JsObject [("displayName", JsString "demo")])])
  /\ lookup_field "requires" [("displayName", JsString "demo")] = None
  /\ lookup_field "version" [("displayName", JsString "demo")] = None
  /\ value (readAppManifest w ["plugin-1.jar"])
     = Ok (Some (mkManifest JsUndefined JsUndefined)).
Proof. repeat split. Qed.

(** ** The release-creation request *)

(** C7: [createAppRelease], given a manifest, posts one request to the
    releases endpoint of the application; its [release.spec] has the release
    title as [displayName], the release's prerelease flag, the manifest's
    [requires] and [version] as they are and [draft: false]; its [notes] has
    the rendered HTML, the raw markdown and [rawType: "MARKDOWN"].  In the
    run on the plugin with [requires: 2.0.0] and [version: 1.2.3], the request
    has these two and [draft: false]. *)
Theorem C7_release_payload :
  forall (w : World) (release : ReleaseInfo) (html markdown : string)
         (appManifest : CommonManifest),
    let payload := releasePayload release html markdown appManifest in
    let spec := property (property payload "release") "spec" in
    let notes := property payload "notes" in
    (exists rest,
        events (createAppRelease w release html markdown (Some appManifest))
        = Info "Create app release" :: StorePost (releases_url w) payload :: rest)
    /\ filter is_store_call
         (events (createAppRelease w release html markdown (Some appManifest)))
       = [StorePost (releases_url w) payload]
    /\ value (createAppRelease w release html markdown (Some appManifest))
       = store_post w (releases_url w) payload
    /\ property spec "displayName" = js_nullable (name release)
    /\ property spec "preRelease" = JsBool (prerelease release)
    /\ property spec "requires" = requires appManifest
    /\ property spec "version" = version appManifest
    /\ property spec "draft" = JsBool false
    /\ property notes "html" = JsString html
    /\ property notes "raw" = JsString markdown
    /\ property notes "rawType" = JsString "MARKDOWN"
    /\ (exists posted,
          In (StorePost (releases_url demo_world) posted) (main demo_world)
          /\ property (property (property posted "release") "spec") "requires"
             = JsString "2.0.0"
          /\ property (property (property posted "release") "spec") "version"
             = JsString "1.2.3"
          /\ property (property (property posted "release") "spec") "draft"
             = JsBool false).
Proof.
  intros w release html markdown appManifest payload spec notes.
  unfold createAppRelease. fold payload.
  rewrite !events_bind, !value_bind. unfold info, call. cbn [events value app].
  split; [eexists; reflexivity|].
  split; [destruct (store_post w (releases_url w) payload); reflexivity|].
  split; [destruct (store_post w (releases_url w) payload); reflexivity|].
  do 8 (split; [reflexivity|]).
  eexists. split.
  - vm_compute. do 18 right. left. reflexivity.
  - repeat split.
Qed.

(** ** The manifest reader never returns [undefined] *)

Lemma readManifestFrom_some (w : World) (targetFile : string) (isPlugin : bool)
    (m : option CommonManifest) :
  value (readManifestFrom w targetFile isPlugin) = Ok m ->
  exists r v, m = Some (mkManifest r v).
Proof.
  unfold readManifestFrom. rewrite value_try_catch.
  set (inner := bind _ _).
  destruct (value inner) as [a|e] eqn:Hinner; [|discriminate].
  intros H. injection H as <-. revert Hinner. unfold inner. clear inner.
  rewrite value_bind. unfold call at 1. cbn [value].
  destruct (AdmZip w targetFile) as [zip|e]; [|discriminate].
  rewrite value_bind. unfold call at 1. cbn [value].
  destruct (getEntry zip _) as [data|]; [|discriminate].
  rewrite value_bind. unfold lift at 1. cbn [value].
  destruct data as [text|e]; [|discriminate].
  rewrite value_bind. unfold call at 1. cbn [value].
  destruct (YAML_parse w text) as [manifest|e]; [|discriminate].
  rewrite value_bind. unfold info, call. cbn [value].
  rewrite value_bind. unfold lift at 1. cbn [value].
  destruct (get_prop manifest "spec") as [spec|e]; [|discriminate].
  rewrite value_bind. unfold lift at 1. cbn [value].
  destruct (get_prop spec "requires") as [r|e]; [|discriminate].
  rewrite value_bind. unfold lift at 1. cbn [value].
  rewrite value_bind. unfold lift at 1. cbn [value].
  destruct (get_prop spec "version") as [v|e]; [|discriminate].
  cbn. intros H. injection H as <-. now exists r, v.
Qed.

Lemma readAppManifest_some (w : World) (assets : list string)
    (m : option CommonManifest) :
  value (readAppManifest w assets) = Ok m ->
  exists r v, m = Some (mkManifest r v).
Proof.
  destruct (picked_or_none assets) as [[file [isPlugin Hp]]|[Hj Hz]].
  - rewrite (value_readAppManifest_picked w assets file isPlugin Hp).
    apply readManifestFrom_some.
  - rewrite (readAppManifest_none w assets Hj Hz). discriminate.
Qed.

(** ** The concurrent uploads *)

Lemma insert_settled_perm (p : Promise) (settled : list Promise) :
  Permutation (insert_settled p settled) (p :: settled).
Proof.
  induction settled as [|q rest IH]; simpl; [apply Permutation_refl|].
  destruct (Nat.leb (settles p) (settles q)); [apply Permutation_refl|].
  apply Permutation_trans with (q :: p :: rest).
  - now apply perm_skip.
  - apply perm_swap.
Qed.

Lemma settle_order_perm (promises : list Promise) :
  Permutation (settle_order promises) promises.
Proof.
  induction promises as [|p rest IH]; simpl; [apply perm_nil|].
  apply Permutation_trans with (p :: settle_order rest).
  - apply insert_settled_perm.
  - now apply perm_skip.
Qed.

Lemma In_settle_order (p : Promise) (promises : list Promise) :
  In p (settle_order promises) <-> In p promises.
Proof.
  split; apply Permutation_in;
    [apply settle_order_perm | apply Permutation_sym, settle_order_perm].
Qed.

(** [Promise.all] is fulfilled only when every promise is. *)
Lemma Promise_all_ok (settled : list Promise) :
  is_ok (value (Promise_all settled)) = true ->
  forall p, In p settled -> is_ok (outcome p) = true.
Proof.
  induction settled as [|q rest IH]; simpl; intros H p Hin; [destruct Hin|].
  destruct (outcome q) as [u|e] eqn:Hq.
  - rewrite value_bind in H. unfold info, call in H. cbn [value] in H.
    destruct Hin as [<-|Hin]; [now rewrite Hq | now apply IH].
  - discriminate.
Qed.

Lemma Promise_all_fulfilled (settled : list Promise) :
  (forall p, In p settled -> is_ok (outcome p) = true) ->
  value (Promise_all settled) = Ok tt.
Proof.
  induction settled as [|q rest IH]; simpl; intros H; [reflexivity|].
  pose proof (H q (or_introl eq_refl)) as Hq.
  destruct (outcome q) as [u|e]; [|discriminate].
  rewrite value_bind. unfold info, call. cbn [value].
  apply IH. intros p Hp. apply H. now right.
Qed.

(** [Promise.all] is rejected as soon as one promise is, with what a rejected
    promise carries. *)
Lemma Promise_all_rejected (settled : list Promise) :
  (exists p, In p settled /\ is_ok (outcome p) = false) ->
  exists q e,
    In q settled /\ outcome q = Thrown e /\ value (Promise_all settled) = Thrown e.
Proof.
  induction settled as [|q rest IH]; simpl; intros [p [Hin Hp]]; [destruct Hin|].
  destruct (outcome q) as [u|e] eqn:Hq.
  - destruct Hin as [<-|Hin]; [rewrite Hq in Hp; discriminate|].
    destruct IH as [q' [e' [Hin' [Hq' Hv]]]]; [now exists p|].
    exists q', e'. repeat split; [now right | assumption |].
    rewrite value_bind. unfold info, call. cbn [value]. exact Hv.
  - exists q, e. repeat split; [now left | assumption].
Qed.

(** Nothing but log lines happens while the uploads are awaited. *)
Lemma Promise_all_no_upload (settled : list Promise) :
  filter is_upload (events (Promise_all settled)) = []
  /\ filter is_upload (late (Promise_all settled)) = [].
Proof.
  assert (Hlogs : forall l, filter is_upload (uploaded_logs l) = []).
  { induction l as [|q rest IH]; simpl; [reflexivity|].
    destruct (outcome q); simpl; exact IH. }
  induction settled as [|q rest [IHe IHl]]; cbn [Promise_all];
    [split; reflexivity|].
  destruct (outcome q) as [u|e].
  - rewrite events_bind, late_bind. unfold info, call.
    cbn [events late value app filter is_upload]. split; assumption.
  - cbn [events late]. split; [reflexivity | apply Hlogs].
Qed.

Lemma snd_startUpload (w : World) (releaseName : JsValue) (total index : nat)
    (asset : string) :
  snd (startUpload w releaseName total index asset) = promiseOf w releaseName asset.
Proof.
  unfold promiseOf, startUpload.
  destruct (negb (existsSync w (assetsDir w ++ "/" ++ asset))); reflexivity.
Qed.

Lemma snd_startUploads (w : World) (releaseName : JsValue) (total index : nat)
    (assets : list string) :
  snd (startUploads w releaseName total index assets)
  = map (promiseOf w releaseName) assets.
Proof.
  revert index. induction assets as [|asset rest IH]; intros index; simpl;
    [reflexivity|].
  now rewrite snd_startUpload, IH.
Qed.

(** The requests issued are those of the assets that are still on disk, in
    the order of the listing. *)
Lemma uploads_startUploads (w : World) (releaseName : JsValue) (total index : nat)
    (assets : list string) :
  filter is_upload (fst (startUploads w releaseName total index assets))
  = map (uploadOf w releaseName)
        (filter (fun asset => existsSync w (assetsDir w ++ "/" ++ asset)) assets).
Proof.
  revert index.
  induction assets as [|asset rest IH]; intros index; cbn [startUploads fst filter];
    [reflexivity|].
  rewrite filter_app, IH. unfold startUpload.
  destruct (existsSync w (assetsDir w ++ "/" ++ asset)); reflexivity.
Qed.

Lemma value_uploadAssets (w : World) (releaseName : JsValue) (assets : list string) :
  value (uploadAssets w releaseName assets)
  = value (Promise_all (settle_order (map (promiseOf w releaseName) assets))).
Proof.
  unfold uploadAssets. rewrite !value_bind. unfold info, call. cbn [value].
  rewrite snd_startUploads.
  destruct (value (Promise_all _)) as [[]|e]; reflexivity.
Qed.

Lemma uploads_uploadAssets (w : World) (releaseName : JsValue) (assets : list string) :
  filter is_upload (events (uploadAssets w releaseName assets))
  = map (uploadOf w releaseName)
        (filter (fun asset => existsSync w (assetsDir w ++ "/" ++ asset)) assets)
  /\ filter is_upload (late (uploadAssets w releaseName assets)) = [].
Proof.
  unfold uploadAssets.
  rewrite !events_bind, !late_bind. unfold info, call. cbn [events late value app].
  destruct (Promise_all_no_upload
              (settle_order (snd (startUploads w releaseName (List.length assets) 0 assets))))
    as [He Hl].
  split.
  - cbn [filter is_upload]. rewrite !filter_app, uploads_startUploads, He.
    destruct (value (Promise_all _)); simpl; now rewrite app_nil_r.
  - rewrite filter_app, Hl. destruct (value (Promise_all _)); reflexivity.
Qed.

(** ** The stages of [run], one by one *)

Ltac crunch :=
  repeat first
    [ progress rewrite ?events_bind, ?late_bind, ?value_bind,
                       ?events_try_catch, ?late_try_catch, ?value_try_catch
    | progress (unfold info, call, lift, ret, throw;
                cbn [events late value app filter is_store_call is_extraction
                     is_create is_upload orb])
    | match goal with
      | |- context [match ?r with Ok _ => _ | Thrown _ => _ end] => destruct r
      | |- context [match ?r with Some _ => _ | None => _ end] => destruct r
      | |- context [let (_, _) := ?r in _] => destruct r
      end ];
  try reflexivity.

Lemma filter_none_weaken {A} (P Q : A -> bool) (l : list A) :
  (forall x, P x = true -> Q x = true) -> filter Q l = [] -> filter P l = [].
Proof.
  intros HPQ. induction l as [|x l IH]; simpl; [reflexivity|].
  destruct (Q x) eqn:HQ; [discriminate|]. intros H.
  destruct (P x) eqn:HP; [now rewrite (HPQ x HP) in HQ | now apply IH].
Qed.

Lemma filter_none_In {A} (P : A -> bool) (l : list A) (x : A) :
  filter P l = [] -> In x l -> P x = false.
Proof.
  intros H Hin. destruct (P x) eqn:HP; [|reflexivity].
  assert (Hf : In x (filter P l)) by (apply filter_In; split; assumption).
  rewrite H in Hf. destruct Hf.
Qed.

Lemma filter_events_bind {A B} (P : Event -> bool) (m : Out A) (k : A -> Out B) :
  filter P (events (bind m k)) =
  (filter P (events m) ++ match value m with
                          | Ok a => filter P (events (k a))
                          | Thrown _ => []
                          end)%list.
Proof. rewrite events_bind, filter_app. destruct (value m); reflexivity. Qed.

Section Stages.

Variable w : World.

Lemma value_getGitHubRepoInfo (owner repo : string) :
  value (getGitHubRepoInfo w owner repo) = repos_get w owner repo.
Proof. unfold getGitHubRepoInfo. crunch. Qed.

Lemma value_getGitHubReleaseInfo (owner repo : string) :
  value (getGitHubReleaseInfo w owner repo)
  = repos_getRelease w owner repo (NumberOf (releaseId w)).
Proof. unfold getGitHubReleaseInfo. crunch. Qed.

Lemma quiet_getGitHubRepoInfo (owner repo : string) :
  filter is_late_stage (events (getGitHubRepoInfo w owner repo)) = []
  /\ late (getGitHubRepoInfo w owner repo) = [].
Proof. unfold getGitHubRepoInfo. split; crunch. Qed.

Lemma quiet_getGitHubReleaseInfo (owner repo : string) :
  filter is_late_stage (events (getGitHubReleaseInfo w owner repo)) = []
  /\ late (getGitHubReleaseInfo w owner repo) = [].
Proof. unfold getGitHubReleaseInfo. split; crunch. Qed.

Lemma quiet_getReleaseNote (repoInfo : RepoInfo) (releaseInfo : ReleaseInfo) :
  filter is_late_stage (events (getReleaseNote w repoInfo releaseInfo)) = []
  /\ late (getReleaseNote w repoInfo releaseInfo) = [].
Proof. unfold getReleaseNote. split; crunch. Qed.

Lemma quiet_getAssets :
  filter is_late_stage (events (getAssets w)) = [] /\ late (getAssets w) = [].
Proof.
  unfold getAssets. split; crunch;
    destruct (negb (existsSync w (assetsDir w))); crunch;
    destruct (Nat.eqb _ 0); crunch.
Qed.

Lemma quiet_readManifestFrom (targetFile : string) (isPlugin : bool) :
  filter is_release_stage (events (readManifestFrom w targetFile isPlugin)) = []
  /\ late (readManifestFrom w targetFile isPlugin) = [].
Proof. unfold readManifestFrom. split; crunch. Qed.

Lemma quiet_readAppManifest (assets : list string) :
  filter is_release_stage (events (readAppManifest w assets)) = []
  /\ late (readAppManifest w assets) = [].
Proof.
  destruct (picked_or_none assets) as [[file [isPlugin Hp]]|[Hj Hz]].
  - rewrite (readAppManifest_picked w assets file isPlugin Hp).
    destruct (quiet_readManifestFrom (path_join w (assetsDir w) file) isPlugin)
      as [He Hl].
    split.
    + rewrite !filter_events_bind. unfold info, call. cbn [events value].
      rewrite He. destruct isPlugin; reflexivity.
    + rewrite !late_bind. unfold info, call. cbn [late value]. now rewrite Hl.
  - rewrite (readAppManifest_none w assets Hj Hz). split; reflexivity.
Qed.

Lemma late_createAppRelease (release : ReleaseInfo) (html markdown : string)
    (appManifest : option CommonManifest) :
  late (createAppRelease w release html markdown appManifest) = []
  /\ filter is_upload (events (createAppRelease w release html markdown appManifest)) = [].
Proof. unfold createAppRelease. split; crunch. Qed.

(** [getAssets] when the directory is missing or empty. *)
Lemma getAssets_missing :
  existsSync w (assetsDir w) = false ->
  value (getAssets w)
  = Thrown (Error ("Assets directory does not exist: " ++ assetsDir w)).
Proof.
  intros H. unfold getAssets. rewrite value_bind. unfold call at 1. cbn [value].
  rewrite H. reflexivity.
Qed.

Lemma getAssets_empty :
  existsSync w (assetsDir w) = true ->
  readdirSync w (assetsDir w) = Ok [] ->
  value (getAssets w) = Thrown (Error ("Assets directory is empty: " ++ assetsDir w)).
Proof.
  intros H H'. unfold getAssets. rewrite value_bind. unfold call at 1. cbn [value].
  rewrite H. cbn [negb]. rewrite value_bind. unfold call at 1. cbn [value].
  rewrite H'. reflexivity.
Qed.

Lemma getAssets_ok (assets : list string) :
  value (getAssets w) = Ok assets ->
  existsSync w (assetsDir w) = true
  /\ readdirSync w (assetsDir w) = Ok assets
  /\ assets <> [].
Proof.
  unfold getAssets. rewrite value_bind. unfold call at 1. cbn [value].
  destruct (existsSync w (assetsDir w)); cbn [negb]; [|discriminate].
  rewrite value_bind. unfold call at 1. cbn [value].
  destruct (readdirSync w (assetsDir w)) as [l|e]; [|discriminate].
  destruct l as [|a l]; cbn; [discriminate|].
  intros H. injection H as <-. repeat split. discriminate.
Qed.

End Stages.

(** ** The run, stage by stage *)

Lemma truthy_string_true (s : string) : s <> "" -> truthy_string s = true.
Proof.
  intros H. unfold truthy_string. destruct (String.eqb_spec s ""); [contradiction|].
  reflexivity.
Qed.

Lemma value_getReleaseNote (w : World) (repoInfo : RepoInfo) (releaseInfo : ReleaseInfo)
    (owner repo html : string) :
  context_repo w = Ok (owner, repo) ->
  markdown_render w (releaseBody repoInfo releaseInfo) "gfm" (owner ++ "/" ++ repo)
  = Ok html ->
  value (getReleaseNote w repoInfo releaseInfo)
  = Ok (html, releaseBody repoInfo releaseInfo).
Proof.
  intros Hc Hr. unfold getReleaseNote.
  rewrite value_bind. unfold call at 1. cbn [value]. rewrite Hc.
  rewrite value_bind. unfold call at 1. cbn [value]. rewrite Hr. reflexivity.
Qed.

Lemma run_publish (w : World) (releaseInfo : ReleaseInfo) (html markdown : string) :
  fetched w releaseInfo html markdown ->
  value (run w) = value (publish w releaseInfo html markdown)
  /\ late (run w) = late (publish w releaseInfo html markdown)
  /\ exists pre,
       events (run w) = (pre ++ events (publish w releaseInfo html markdown))%list
       /\ filter is_late_stage pre = [].
Proof.
  intros [Hid [owner [repo [repoInfo [Hc [Hrepo [Hrel [-> Hhtml]]]]]]]].
  pose proof (value_getReleaseNote w repoInfo releaseInfo owner repo html Hc Hhtml)
    as Hnote.
  pose proof (value_getGitHubRepoInfo w owner repo) as Hv1. rewrite Hrepo in Hv1.
  pose proof (value_getGitHubReleaseInfo w owner repo) as Hv2. rewrite Hrel in Hv2.
  destruct (quiet_getGitHubRepoInfo w owner repo) as [Hq1 Hl1].
  destruct (quiet_getGitHubReleaseInfo w owner repo) as [Hq2 Hl2].
  destruct (quiet_getReleaseNote w repoInfo releaseInfo) as [Hq3 Hl3].
  assert (Hrun : run w =
                 mkOut ([ContextRepo] ++ events (getGitHubRepoInfo w owner repo)
                        ++ events (getGitHubReleaseInfo w owner repo)
                        ++ events (getReleaseNote w repoInfo releaseInfo)
                        ++ events (publish w releaseInfo html
                                           (releaseBody repoInfo releaseInfo)))
                       (late (publish w releaseInfo html
                                      (releaseBody repoInfo releaseInfo)))
                       (value (publish w releaseInfo html
                                       (releaseBody repoInfo releaseInfo)))).
  { unfold run. rewrite (truthy_string_true _ Hid). cbn [negb].
    fold (publish w releaseInfo html (releaseBody repoInfo releaseInfo)).
    rewrite (bind_ok (call ContextRepo (context_repo w)) (owner, repo))
      by (unfold call; cbn [value]; exact Hc).
    cbv beta iota.
    rewrite (bind_ok (getGitHubRepoInfo w owner repo) repoInfo _ Hv1).
    rewrite (bind_ok (getGitHubReleaseInfo w owner repo) releaseInfo _ Hv2).
    rewrite (bind_ok (getReleaseNote w repoInfo releaseInfo) _ _ Hnote).
    cbv beta iota. cbn [events late value call].
    rewrite Hl1, Hl2, Hl3. reflexivity. }
  rewrite Hrun. cbn [events late value]. repeat split.
  eexists. split; [rewrite !app_assoc; reflexivity|].
  rewrite !filter_app, Hq1, Hq2, Hq3. reflexivity.
Qed.

(** ** A missing or empty assets directory *)

Lemma fails_early_bind {A B} (m : Out A) (k : A -> Out B) :
  filter is_late_stage (events m) = [] -> late m = [] ->
  (forall a, value m = Ok a -> fails_early (k a)) ->
  fails_early (bind m k).
Proof.
  intros He Hl Hk. unfold fails_early. destruct (value m) as [a|e] eqn:Hv.
  - destruct (Hk a eq_refl) as [He' [Hl' Hv']].
    rewrite (bind_ok m a k Hv). cbn [events late value].
    rewrite filter_app, He, He', Hl, Hl'. repeat split. exact Hv'.
  - rewrite (bind_thrown m e k Hv). cbn [events late value]. repeat split; assumption.
Qed.

Lemma run_without_assets (w : World) :
  assets_unavailable w -> fails_early (run w).
Proof.
  intros H. unfold run.
  destruct (truthy_string (releaseId w)); cbn [negb]; [|repeat split].
  apply fails_early_bind; [reflexivity | reflexivity | intros [owner repo] _].
  apply fails_early_bind; [apply quiet_getGitHubRepoInfo ..| intros repoInfo _].
  apply fails_early_bind; [apply quiet_getGitHubReleaseInfo ..| intros releaseInfo _].
  apply fails_early_bind; [apply quiet_getReleaseNote ..| intros [html markdown] _].
  apply fails_early_bind; [apply quiet_getAssets ..| intros assets Ha].
  exfalso. destruct (getAssets_ok w assets Ha) as [He [Hr Hne]].
  destruct H as [H|H]; [congruence|].
  rewrite H in Hr. injection Hr as <-. now apply Hne.
Qed.

(** C10, as the code has it.  When the assets directory is missing or its
    listing is empty, the run fails, and neither a step of manifest
    extraction nor a call to the store is made; when moreover the run got as
    far as the directory (the release identifier is given, the repository,
    the release and the rendered note were fetched), the failure that is
    reported names the directory. *)
Theorem C10_assets_unavailable :
  forall w : World,
    assets_unavailable w ->
    is_ok (value (run w)) = false
    /\ filter is_extraction (main w) = []
    /\ filter is_store_call (main w) = []
    /\ (forall releaseInfo html markdown,
          fetched w releaseInfo html markdown ->
          exists before,
            main w
            = (before
               ++ [SetFailed
                     ("❌ [Failed]: "
                      ++ (if existsSync w (assetsDir w)
                          then "Assets directory is empty: "
                          else "Assets directory does not exist: ")
                      ++ assetsDir w)])%list).
Proof.
  intros w H. destruct (run_without_assets w H) as [He [Hl Hv]].
  assert (Hmain : exists e, value (run w) = Thrown e
                            /\ main w = (events (run w)
                                         ++ [SetFailed ("❌ [Failed]: " ++ err_message e)])%list).
  { unfold main. rewrite Hl. destruct (value (run w)) as [u|e]; [discriminate|].
    exists e. split; reflexivity. }
  destruct Hmain as [e [Hrun Hmain]].
  split; [exact Hv|]. split; [|split].
  - rewrite Hmain, filter_app.
    rewrite (filter_none_weaken is_extraction is_late_stage _) ; [reflexivity | | exact He].
    intros x Hx. unfold is_late_stage. rewrite Hx. now rewrite orb_true_r.
  - rewrite Hmain, filter_app.
    rewrite (filter_none_weaken is_store_call is_late_stage _) ; [reflexivity | | exact He].
    intros x Hx. unfold is_late_stage. now rewrite Hx.
  - intros releaseInfo html markdown Hf.
    destruct (run_publish w releaseInfo html markdown Hf) as [Hpv _].
    exists (events (run w)). rewrite Hmain. f_equal. f_equal. f_equal.
    rewrite Hpv in Hrun. unfold publish in Hrun. rewrite value_bind in Hrun.
    destruct (existsSync w (assetsDir w)) eqn:Hex.
    + destruct H as [H|H]; [congruence|].
      rewrite (getAssets_empty w Hex H) in Hrun. cbv beta iota in Hrun.
      injection Hrun as <-. reflexivity.
    + rewrite (getAssets_missing w Hex) in Hrun. cbv beta iota in Hrun.
      injection Hrun as <-. reflexivity.
Qed.

Lemma C10_assets_unavailable_witness :
  assets_unavailable no_assets_world
  /\ exists before,
       main no_assets_world
       = (before
          ++ [SetFailed "❌ [Failed]: Assets directory does not exist: build/libs"])%list.
Proof.
  split; [left; reflexivity|].
  exact (proj2 (proj2 (proj2 (C10_assets_unavailable no_assets_world
                                (or_introl eq_refl))))
           demo_release
           ("<p>" ++ releaseBody (mkRepoInfo false) demo_release ++ "</p>")
           (releaseBody (mkRepoInfo false) demo_release)
           (conj (fun H : releaseId no_assets_world = "" =>
                    eq_ind "4242" (fun s => match s with
                                            | EmptyString => False
                                            | String _ _ => True
                                            end) I "" H)
                 (ex_intro _ "halo-sigs"
                    (ex_intro _ "plugin-demo"
                       (ex_intro _ (mkRepoInfo false)
                          (conj eq_refl (conj eq_refl (conj eq_refl
                             (conj eq_refl eq_refl))))))))).
Defined.

(** C10 as the specification has it fails: with no release identifier the run
    fails on that, whatever the state of the assets directory, and the
    failure it reports does not name the directory. *)
Lemma C10_counterexample :
  ~ (forall w : World,
       assets_unavailable w ->
       exists message,
         In (SetFailed message) (main w) /\ includes message (assetsDir w) = true).
Proof.
  intros H.
  destruct (H (with_inputs no_assets_world "build/libs" "") (or_introl eq_refl))
    as [message [Hin Hinc]].
  destruct Hin as [Hm|[]]. injection Hm as <-. vm_compute in Hinc. discriminate.
Qed.

(** ** The guard of [createAppRelease] *)

Lemma events_createAppRelease_some (w : World) (release : ReleaseInfo)
    (html markdown : string) (appManifest : CommonManifest) :
  exists rest,
    events (createAppRelease w release html markdown (Some appManifest))
    = Info "Create app release"
      :: StorePost (releases_url w) (releasePayload release html markdown appManifest)
      :: rest.
Proof.
  unfold createAppRelease. rewrite !events_bind. unfold info, call.
  cbn [events value app]. eexists. reflexivity.
Qed.

Lemma posts_if_started_bind {A B} (w : World) (m : Out A) (k : A -> Out B) :
  filter is_create (events m) = [] ->
  (forall a, value m = Ok a -> posts_if_started w (k a)) ->
  posts_if_started w (bind m k).
Proof.
  intros He Hk. unfold posts_if_started. destruct (value m) as [a|e] eqn:Hv.
  - rewrite (bind_ok m a k Hv). cbn [events].
    destruct (Hk a eq_refl) as [Hn|[payload Hin]].
    + left. now rewrite filter_app, He, Hn.
    + right. exists payload. apply in_or_app. now right.
  - rewrite (bind_thrown m e k Hv). cbn [events]. now left.
Qed.

Lemma is_create_late_stage (ev : Event) : is_create ev = true -> is_late_stage ev = true.
Proof. intros H. unfold is_late_stage. rewrite H. apply orb_true_r. Qed.

Lemma is_create_release_stage (ev : Event) :
  is_create ev = true -> is_release_stage ev = true.
Proof. intros H. unfold is_release_stage. rewrite H. apply orb_true_r. Qed.

Lemma run_posts_if_started (w : World) : posts_if_started w (run w).
Proof.
  unfold run. destruct (truthy_string (releaseId w)); cbn [negb]; [|now left].
  apply posts_if_started_bind; [reflexivity | intros [owner repo] _].
  apply posts_if_started_bind; [| intros repoInfo _].
  { apply (filter_none_weaken _ _ _ is_create_late_stage), quiet_getGitHubRepoInfo. }
  apply posts_if_started_bind; [| intros releaseInfo _].
  { apply (filter_none_weaken _ _ _ is_create_late_stage), quiet_getGitHubReleaseInfo. }
  apply posts_if_started_bind; [| intros [html markdown] _].
  { apply (filter_none_weaken _ _ _ is_create_late_stage), quiet_getReleaseNote. }
  apply posts_if_started_bind; [| intros assets _].
  { apply (filter_none_weaken _ _ _ is_create_late_stage), quiet_getAssets. }
  apply posts_if_started_bind; [| intros appManifest Hm].
  { apply (filter_none_weaken _ _ _ is_create_release_stage), quiet_readAppManifest. }
  destruct (readAppManifest_some w assets appManifest Hm) as [r [v ->]].
  right. destruct (events_createAppRelease_some w releaseInfo html markdown
                     (mkManifest r v)) as [rest Hev].
  eexists. rewrite events_bind, Hev. right; left; reflexivity.
Qed.

Lemma uploaded_logs_quiet (settled : list Promise) :
  filter is_create (uploaded_logs settled) = [].
Proof.
  induction settled as [|q rest IH]; simpl; [reflexivity|].
  destruct (outcome q); simpl; exact IH.
Qed.

Lemma late_Promise_all_quiet (settled : list Promise) :
  filter is_create (late (Promise_all settled)) = [].
Proof.
  induction settled as [|q rest IH]; cbn [Promise_all]; [reflexivity|].
  destruct (outcome q).
  - rewrite late_bind. unfold info, call. cbn [late value app]. exact IH.
  - cbn [late]. apply uploaded_logs_quiet.
Qed.

Lemma late_uploadAssets_quiet (w : World) (releaseName : JsValue) (assets : list string) :
  filter is_create (late (uploadAssets w releaseName assets)) = [].
Proof.
  unfold uploadAssets. rewrite !late_bind. unfold info, call. cbn [late value app].
  rewrite filter_app, late_Promise_all_quiet.
  destruct (value (Promise_all _)); reflexivity.
Qed.

Lemma late_quiet_bind {A B} (m : Out A) (k : A -> Out B) :
  late m = [] ->
  (forall a, filter is_create (late (k a)) = []) ->
  filter is_create (late (bind m k)) = [].
Proof.
  intros Hl Hk. rewrite late_bind, Hl. destruct (value m); [apply Hk | reflexivity].
Qed.

Lemma late_run_quiet (w : World) : filter is_create (late (run w)) = [].
Proof.
  unfold run. destruct (truthy_string (releaseId w)); cbn [negb]; [|reflexivity].
  apply late_quiet_bind; [reflexivity | intros [owner repo]].
  apply late_quiet_bind; [apply quiet_getGitHubRepoInfo | intros repoInfo].
  apply late_quiet_bind; [apply quiet_getGitHubReleaseInfo | intros releaseInfo].
  apply late_quiet_bind; [apply quiet_getReleaseNote | intros [html markdown]].
  apply late_quiet_bind; [apply quiet_getAssets | intros assets].
  apply late_quiet_bind; [apply quiet_readAppManifest | intros appManifest].
  apply late_quiet_bind; [apply late_createAppRelease | intros appRelease].
  apply late_quiet_bind; [reflexivity | intros metadata].
  apply late_quiet_bind; [reflexivity | intros releaseName].
  apply late_uploadAssets_quiet.
Qed.

(** C9: [readAppManifest] returns a manifest with its two fields or throws,
    never [undefined]; and in a run, whenever [createAppRelease] is started
    it gets past its guard and posts the release. *)
Theorem C9_manifest_never_undefined :
  forall (w : World) (assets : list string),
    (forall m,
        value (readAppManifest w assets) = Ok m ->
        exists r v, m = Some (mkManifest r v))
    /\ value (readAppManifest w assets) <> Ok None
    /\ (In (Info "Create app release") (main w) ->
        exists payload, In (StorePost (releases_url w) payload) (main w)).
Proof.
  intros w assets. split; [apply readAppManifest_some|]. split.
  - intros H. destruct (readAppManifest_some w assets None H) as [r [v Hm]].
    discriminate.
  - unfold main. cbv zeta. intros Hin.
    destruct (run_posts_if_started w) as [Hn|[payload Hp]].
    + exfalso. apply in_app_or in Hin. destruct Hin as [Hin|Hin].
      * pose proof (filter_none_In _ _ _ Hn Hin) as Hc. discriminate.
      * apply in_app_or in Hin. destruct Hin as [[Hin|[]]|Hin].
        -- destruct (value (run w)); discriminate.
        -- pose proof (filter_none_In _ _ _ (late_run_quiet w) Hin) as Hc.
           discriminate.
    + exists payload. apply in_or_app. now left.
Qed.

Lemma C9_manifest_never_undefined_witness :
  value (readAppManifest demo_world ["plugin-1.jar"])
  = Ok (Some (mkManifest (JsString "2.0.0") (JsString "1.2.3")))
  /\ (exists r v,
        Some (mkManifest (JsString "2.0.0") (JsString "1.2.3")) = Some (mkManifest r v))
  /\ In (Info "Create app release") (main demo_world)
  /\ exists payload, In (StorePost (releases_url demo_world) payload) (main demo_world).
Proof.
  assert (H : In (Info "Create app release") (main demo_world)).
  { vm_compute. do 17 right. left. reflexivity. }
  split; [reflexivity|]. split.
  - exact (proj1 (C9_manifest_never_undefined demo_world ["plugin-1.jar"]) _ eq_refl).
  - split; [exact H|].
    exact (proj2 (proj2 (C9_manifest_never_undefined demo_world ["plugin-1.jar"])) H).
Defined.

(** ** From the created release to the uploads *)

Lemma value_createAppRelease_some (w : World) (release : ReleaseInfo)
    (html markdown : string) (appManifest : CommonManifest) :
  value (createAppRelease w release html markdown (Some appManifest))
  = store_post w (releases_url w) (releasePayload release html markdown appManifest).
Proof. unfold createAppRelease. crunch. Qed.

Lemma is_upload_late_stage (ev : Event) : is_upload ev = true -> is_late_stage ev = true.
Proof. destruct ev; simpl; try discriminate. reflexivity. Qed.

Lemma is_upload_release_stage (ev : Event) :
  is_upload ev = true -> is_release_stage ev = true.
Proof. destruct ev; simpl; try discriminate. reflexivity. Qed.

Lemma readAppManifest_opens (w : World) (assets : list string)
    (m : option CommonManifest) :
  value (readAppManifest w assets) = Ok m ->
  exists archive,
    In archive assets
    /\ In (ZipOpen (path_join w (assetsDir w) archive)) (events (readAppManifest w assets)).
Proof.
  intros Hv. destruct (picked_or_none assets) as [[file [isPlugin Hp]]|[Hj Hz]].
  - exists file. split; [exact (proj1 (picked_counts _ _ _ Hp))|].
    destruct (picked_selects w assets file isPlugin Hp) as [rest [Hev _]].
    rewrite Hev. right; right; left; reflexivity.
  - rewrite (readAppManifest_none w assets Hj Hz) in Hv. discriminate.
Qed.

(** Once the release is created, what remains of the run is [uploadAssets]. *)
Lemma run_released (w : World) (releaseName : JsValue) (assets : list string) :
  released w releaseName assets ->
  value (run w) = value (uploadAssets w releaseName assets)
  /\ late (run w) = late (uploadAssets w releaseName assets)
  /\ exists before,
       events (run w) = (before ++ events (uploadAssets w releaseName assets))%list
       /\ filter is_upload before = []
       /\ (exists payload, In (StorePost (releases_url w) payload) before)
       /\ (exists archive,
             In archive assets
             /\ In (ZipOpen (path_join w (assetsDir w) archive)) before).
Proof.
  intros [releaseInfo [html [markdown [appManifest [appRelease [metadata
            [Hf [Ha [Hm [Hp [Hmeta Hname]]]]]]]]]]].
  destruct (run_publish w releaseInfo html markdown Hf) as [Hv [Hl [pre [He Hpre]]]].
  pose proof (value_createAppRelease_some w releaseInfo html markdown appManifest)
    as Hc. rewrite Hp in Hc.
  destruct (quiet_getAssets w) as [Hqa Hla].
  destruct (quiet_readAppManifest w assets) as [Hqm Hlm].
  destruct (late_createAppRelease w releaseInfo html markdown (Some appManifest))
    as [Hlc Hqc].
  assert (Hpub : publish w releaseInfo html markdown =
                 mkOut (events (getAssets w) ++ events (readAppManifest w assets)
                        ++ events (createAppRelease w releaseInfo html markdown
                                                    (Some appManifest))
                        ++ events (uploadAssets w releaseName assets))
                       (late (uploadAssets w releaseName assets))
                       (value (uploadAssets w releaseName assets))).
  { unfold publish.
    rewrite (bind_ok (getAssets w) assets _ Ha).
    rewrite (bind_ok (readAppManifest w assets) (Some appManifest) _ Hm).
    rewrite (bind_ok (createAppRelease w releaseInfo html markdown (Some appManifest))
                     appRelease _ Hc).
    rewrite (bind_ok (lift (get_prop appRelease "metadata")) metadata _ Hmeta).
    rewrite (bind_ok (lift (get_prop metadata "name")) releaseName _ Hname).
    cbn [events late value lift]. rewrite Hla, Hlm, Hlc. reflexivity. }
  rewrite Hv, Hl, He, Hpub. cbn [events late value].
  split; [reflexivity|]. split; [reflexivity|].
  exists (pre ++ events (getAssets w) ++ events (readAppManifest w assets)
          ++ events (createAppRelease w releaseInfo html markdown (Some appManifest)))%list.
  split; [now rewrite <- !app_assoc|]. split; [|split].
  - rewrite !filter_app, Hqc.
    rewrite (filter_none_weaken _ _ _ is_upload_late_stage Hpre).
    rewrite (filter_none_weaken _ _ _ is_upload_late_stage Hqa).
    rewrite (filter_none_weaken _ _ _ is_upload_release_stage Hqm).
    reflexivity.
  - destruct (events_createAppRelease_some w releaseInfo html markdown appManifest)
      as [rest Hev].
    eexists. apply in_or_app; right. apply in_or_app; right. apply in_or_app; right.
    rewrite Hev. right; left; reflexivity.
  - destruct (readAppManifest_opens w assets _ Hm) as [archive [Hin Hopen]].
    exists archive. split; [exact Hin|].
    apply in_or_app; right. apply in_or_app; right. apply in_or_app; now left.
Qed.

Lemma getReleaseNote_ok (w : World) (repoInfo : RepoInfo) (releaseInfo : ReleaseInfo)
    (html markdown : string) :
  value (getReleaseNote w repoInfo releaseInfo) = Ok (html, markdown) ->
  markdown = releaseBody repoInfo releaseInfo
  /\ exists owner repo,
       context_repo w = Ok (owner, repo)
       /\ markdown_render w markdown "gfm" (owner ++ "/" ++ repo) = Ok html.
Proof.
  unfold getReleaseNote. rewrite value_bind. unfold call at 1. cbn [value].
  destruct (context_repo w) as [[owner repo]|e]; [|discriminate].
  rewrite value_bind. unfold call at 1. cbn [value].
  destruct (markdown_render w _ _ _) as [h|e] eqn:Hr; [|discriminate].
  cbn. intros H. injection H as <- <-. split; [reflexivity|].
  exists owner, repo. split; [reflexivity | exact Hr].
Qed.


(** ** Every asset is uploaded once *)

Lemma string_app_inv_head (a b c : string) : a ++ b = a ++ c -> b = c.
Proof.
  induction a as [|x a IH]; simpl; intros H; [exact H|].
  injection H as H. now apply IH.
Qed.








(** ** A rejected upload *)

Lemma events_startUpload (w : World) (releaseName : JsValue) (total index : nat)
    (asset : string) :
  let assetPath := assetsDir w ++ "/" ++ asset in
  exists rest,
    fst (startUpload w releaseName total index asset) = ExistsSync assetPath :: rest
    /\ (existsSync w assetPath = false -> rest = [])
    /\ (existsSync w assetPath = true ->
        exists line, rest = [Info line; uploadOf w releaseName asset]).
Proof.
  cbv zeta. unfold startUpload.
  destruct (existsSync w (assetsDir w ++ "/" ++ asset)); cbn [negb fst].
  - eexists. split; [reflexivity|]. split; [discriminate|].
    intros _. eexists. reflexivity.
  - eexists. split; [reflexivity|]. split; [reflexivity | discriminate].
Qed.

Lemma promiseOf_missing (w : World) (releaseName : JsValue) (asset : string) :
  existsSync w (assetsDir w ++ "/" ++ asset) = false ->
  promiseOf w releaseName asset
  = mkPromise asset 0
      (Thrown (Error ("Asset file does not exist: " ++ assetsDir w ++ "/" ++ asset))).
Proof. intros H. unfold promiseOf, startUpload. now rewrite H. Qed.

Lemma promiseOf_present (w : World) (releaseName : JsValue) (asset : string) :
  existsSync w (assetsDir w ++ "/" ++ asset) = true ->
  outcome (promiseOf w releaseName asset)
  = snd (store_upload w upload_url
           (uploadForm releaseName (assetsDir w ++ "/" ++ asset))).
Proof. intros H. unfold promiseOf, startUpload. now rewrite H. Qed.

Lemma uploadAssets_rejected (w : World) (releaseName : JsValue) (assets : list string) :
  (exists asset,
      In asset assets /\ is_ok (outcome (promiseOf w releaseName asset)) = false) ->
  exists culprit e,
    In culprit assets
    /\ outcome (promiseOf w releaseName culprit) = Thrown e
    /\ value (uploadAssets w releaseName assets) = Thrown e.
Proof.
  intros [asset [Hin Hrej]]. rewrite value_uploadAssets.
  destruct (Promise_all_rejected
              (settle_order (map (promiseOf w releaseName) assets)))
    as [q [e [Hq [Hout Hv]]]].
  { exists (promiseOf w releaseName asset). split; [|exact Hrej].
    apply In_settle_order. now apply in_map. }
  apply In_settle_order, in_map_iff in Hq. destruct Hq as [culprit [<- Hc]].
  now exists culprit, e.
Qed.

Lemma not_uploaded_when_missing (w : World) (releaseName : JsValue)
    (assets : list string) (asset : string) :
  existsSync w (assetsDir w ++ "/" ++ asset) = false ->
  ~ In (uploadOf w releaseName asset)
       (events (uploadAssets w releaseName assets)
        ++ late (uploadAssets w releaseName assets)).
Proof.
  intros Hmissing Hin.
  assert (Hf : In (uploadOf w releaseName asset)
                  (filter is_upload (events (uploadAssets w releaseName assets)
                                     ++ late (uploadAssets w releaseName assets))))
    by (apply filter_In; split; [exact Hin | reflexivity]).
  destruct (uploads_uploadAssets w releaseName assets) as [He Hl].
  rewrite filter_app, He, Hl, app_nil_r in Hf.
  apply in_map_iff in Hf. destruct Hf as [other [Heq Hother]].
  apply filter_In in Hother. destruct Hother as [_ Hpresent].
  unfold uploadOf, uploadForm in Heq. injection Heq as Heq.
  cbv beta in Hpresent.
  apply string_app_inv_head in Heq. injection Heq as ->. congruence.
Qed.

(** C6: in [uploadAssets], the existence of each asset is checked first, and
    an asset that is gone is not uploaded: its promise is rejected with
    "Asset file does not exist"; when the promise of any asset is rejected,
    [uploadAssets] throws what one of the rejected promises carries (that of
    the asset itself when it is the only one rejected), and a run that came
    this far fails, reporting the message of that very error. *)
Theorem C6_rejected_upload_fails_run :
  forall (w : World) (releaseName : JsValue) (assets : list string),
    (forall total index asset,
        exists rest,
          fst (startUpload w releaseName total index asset)
          = ExistsSync (assetsDir w ++ "/" ++ asset) :: rest)
    /\ (forall asset,
          In asset assets ->
          existsSync w (assetsDir w ++ "/" ++ asset) = false ->
          outcome (promiseOf w releaseName asset)
          = Thrown (Error ("Asset file does not exist: " ++ assetsDir w ++ "/" ++ asset))
          /\ ~ In (uploadOf w releaseName asset)
                  (events (uploadAssets w releaseName assets)
                   ++ late (uploadAssets w releaseName assets)))
    /\ ((exists asset,
            In asset assets /\ is_ok (outcome (promiseOf w releaseName asset)) = false) ->
        exists culprit e,
          In culprit assets
          /\ outcome (promiseOf w releaseName culprit) = Thrown e
          /\ value (uploadAssets w releaseName assets) = Thrown e
          /\ (released w releaseName assets ->
              value (run w) = Thrown e
              /\ In (SetFailed ("❌ [Failed]: " ++ err_message e)) (main w)))
    /\ (forall asset e,
          In asset assets ->
          outcome (promiseOf w releaseName asset) = Thrown e ->
          (forall other,
              In other assets ->
              is_ok (outcome (promiseOf w releaseName other)) = false ->
              other = asset) ->
          value (uploadAssets w releaseName assets) = Thrown e).
Proof.
  intros w releaseName assets. split; [|split; [|split]].
  - intros total index asset.
    destruct (events_startUpload w releaseName total index asset) as [rest [H _]].
    now exists rest.
  - intros asset Hin Hmissing. split.
    + now rewrite (promiseOf_missing w releaseName asset Hmissing).
    + now apply not_uploaded_when_missing.
  - intros Hrej.
    destruct (uploadAssets_rejected w releaseName assets Hrej)
      as [culprit [e [Hin [Hout Hv]]]].
    exists culprit, e. repeat split; try assumption.
    + destruct (run_released w releaseName assets H) as [Hrun _].
      now rewrite Hrun.
    + destruct (run_released w releaseName assets H) as [Hrun _].
      unfold main. rewrite Hrun, Hv.
      apply in_or_app; right. left. reflexivity.
  - intros asset e Hin Hout Honly.
    destruct (uploadAssets_rejected w releaseName assets) as [culprit [e' [Hc [Hout' Hv]]]].
    { exists asset. split; [exact Hin | now rewrite Hout]. }
    assert (culprit = asset) by (apply Honly; [exact Hc | now rewrite Hout']).
    subst culprit. congruence.
Qed.

Lemma demo_fetched (w : World) :
  releaseId w = "4242" ->
  context_repo w = Ok ("halo-sigs", "plugin-demo") ->
  repos_get w = repos_get demo_world ->
  repos_getRelease w = repos_getRelease demo_world ->
  markdown_render w = markdown_render demo_world ->
  fetched w demo_release
          ("<p>" ++ releaseBody (mkRepoInfo false) demo_release ++ "</p>")
          (releaseBody (mkRepoInfo false) demo_release).
Proof.
  intros Hid Hc Hrepo Hrel Hmd. split; [rewrite Hid; discriminate|].
  exists "halo-sigs", "plugin-demo", (mkRepoInfo false).
  rewrite Hc, Hrepo, Hrel, Hmd. repeat split.
Qed.

Lemma rejecting_released :
  released rejecting_world (JsString "app-release-x7k2p") ["plugin-1.jar"; "checksums.txt"].
Proof.
  exists demo_release,
         ("<p>" ++ releaseBody (mkRepoInfo false) demo_release ++ "</p>"),
         (releaseBody (mkRepoInfo false) demo_release),
         (mkManifest (JsString "2.0.0") (JsString "1.2.3")),
         demo_store_answer,
         (JsObject [("name", JsString "app-release-x7k2p")]).
  split; [now apply demo_fetched|]. repeat split.
Qed.

Lemma C6_rejected_upload_fails_run_witness :
  (exists asset,
      In asset ["plugin-1.jar"; "checksums.txt"]
      /\ is_ok (outcome (promiseOf rejecting_world (JsString "app-release-x7k2p") asset))
         = false)
  /\ released rejecting_world (JsString "app-release-x7k2p")
              ["plugin-1.jar"; "checksums.txt"]
  /\ value (run rejecting_world)
     = Thrown (mkError "AxiosError" "Request failed with status code 500")
  /\ In (SetFailed "❌ [Failed]: Request failed with status code 500")
        (main rejecting_world)
  /\ existsSync vanished_world (assetsDir vanished_world ++ "/" ++ "checksums.txt")
     = false
  /\ outcome (promiseOf vanished_world (JsString "app-release-x7k2p") "checksums.txt")
     = Thrown (Error "Asset file does not exist: build/libs/checksums.txt").
Proof.
  assert (Hrej : exists asset,
             In asset ["plugin-1.jar"; "checksums.txt"]
             /\ is_ok (outcome (promiseOf rejecting_world
                                  (JsString "app-release-x7k2p") asset)) = false).
  { exists "checksums.txt". split; [right; left; reflexivity | reflexivity]. }
  split; [exact Hrej|]. split; [exact rejecting_released|].
  destruct (proj1 (proj2 (proj2 (C6_rejected_upload_fails_run rejecting_world
                                   (JsString "app-release-x7k2p")
                                   ["plugin-1.jar"; "checksums.txt"]))) Hrej)
    as [culprit [e [_ [_ [Hv Hrun]]]]].
  assert (He : e = mkError "AxiosError" "Request failed with status code 500").
  { vm_compute in Hv. now injection Hv as <-. }
  subst e. destruct (Hrun rejecting_released) as [Hvalue Hreport].
  split; [exact Hvalue|]. split; [exact Hreport|].
  split; [reflexivity|].
  exact (proj1 (proj1 (proj2 (C6_rejected_upload_fails_run vanished_world
                                (JsString "app-release-x7k2p")
                                ["plugin-1.jar"; "checksums.txt"]))
                 "checksums.txt" (or_intror (or_introl eq_refl)) eq_refl)).
Defined.

(** * Further properties of the code *)

(** ** Manifest extraction: the failures *)

(** X1: when the archive that is read opens and has no manifest entry of its
    kind, extraction fails; the error names the file that was expected, inside
    the message of the [catch] block; the manifest parser is never called. *)
Theorem X1_manifest_entry_missing :
  forall (w : World) (assets : list string) (file : string) (isPlugin : bool)
         (zip : Archive),
    picked assets file isPlugin ->
    AdmZip w (path_join w (assetsDir w) file) = Ok zip ->
    getEntry zip (if isPlugin then "plugin.yaml" else "theme.yaml") = None ->
    value (readAppManifest w assets)
    = Thrown (Error ("Failed to read manifest file: Error: "
                     ++ (if isPlugin then "Plugin" else "Theme")
                     ++ " package does not contain "
                     ++ (if isPlugin then "plugin.yaml" else "theme.yaml")
                     ++ " file"))
    /\ events (readAppManifest w assets)
       = [Info "Read app manifest";
          Info ("Found " ++ (if isPlugin then "plugin" else "theme") ++ " file: " ++ file);
          ZipOpen (path_join w (assetsDir w) file);
          ZipGetEntry (path_join w (assetsDir w) file)
                      (if isPlugin then "plugin.yaml" else "theme.yaml")].
Proof.
  intros w assets file isPlugin zip Hp Hzip Hentry.
  rewrite (readAppManifest_picked w assets file isPlugin Hp).
  assert (Hread : readManifestFrom w (path_join w (assetsDir w) file) isPlugin
                  = mkOut [ZipOpen (path_join w (assetsDir w) file);
                           ZipGetEntry (path_join w (assetsDir w) file)
                             (if isPlugin then "plugin.yaml" else "theme.yaml")]
                          []
                          (Thrown (Error ("Failed to read manifest file: Error: "
                                          ++ (if isPlugin then "Plugin" else "Theme")
                                          ++ " package does not contain "
                                          ++ (if isPlugin then "plugin.yaml"
                                              else "theme.yaml")
                                          ++ " file")))).
  { unfold readManifestFrom.
    rewrite (bind_ok (call (ZipOpen _) (AdmZip w _)) zip) by exact Hzip.
    cbv beta zeta. rewrite Hentry. destruct isPlugin; reflexivity. }
  rewrite Hread. split; reflexivity.
Qed.

Lemma X1_manifest_entry_missing_witness :
  value (readAppManifest empty_archive_world ["plugin-1.jar"])
  = Thrown (Error ("Failed to read manifest file: Error: "
                   ++ "Plugin package does not contain plugin.yaml file")).
Proof.
  exact (proj1 (X1_manifest_entry_missing empty_archive_world ["plugin-1.jar"]
                  "plugin-1.jar" true [] eq_refl eq_refl eq_refl)).
Defined.

(** X2: when the archive that is read cannot be opened, extraction fails with
    the text of that error inside the message of the [catch] block, and
    nothing is looked up or parsed. *)
Theorem X2_archive_unreadable :
  forall (w : World) (assets : list string) (file : string) (isPlugin : bool)
         (e : JsError),
    picked assets file isPlugin ->
    AdmZip w (path_join w (assetsDir w) file) = Thrown e ->
    value (readAppManifest w assets)
    = Thrown (Error ("Failed to read manifest file: " ++ toString e))
    /\ events (readAppManifest w assets)
       = [Info "Read app manifest";
          Info ("Found " ++ (if isPlugin then "plugin" else "theme") ++ " file: " ++ file);
          ZipOpen (path_join w (assetsDir w) file)].
Proof.
  intros w assets file isPlugin e Hp Hzip.
  rewrite (readAppManifest_picked w assets file isPlugin Hp).
  assert (Hread : readManifestFrom w (path_join w (assetsDir w) file) isPlugin
                  = mkOut [ZipOpen (path_join w (assetsDir w) file)] []
                          (Thrown (Error ("Failed to read manifest file: "
                                          ++ toString e)))).
  { unfold readManifestFrom.
    rewrite (bind_thrown (call (ZipOpen _) (AdmZip w _)) e) by exact Hzip.
    unfold try_catch, call. cbn [value events late]. reflexivity. }
  rewrite Hread. split; reflexivity.
Qed.

Lemma X2_archive_unreadable_witness :
  value (readAppManifest broken_archive_world ["theme-1.zip"])
  = Thrown (Error ("Failed to read manifest file: "
                   ++ "Error: Invalid or unsupported zip format. No END header found")).
Proof.
  exact (proj1 (X2_archive_unreadable broken_archive_world ["theme-1.zip"]
                  "theme-1.zip" false _ (conj eq_refl eq_refl) eq_refl)).
Defined.

(** X3: [readAppManifest] throws only two kinds of error, both plain [Error]s:
    "No jar or zip file found in assets directory", exactly when the listing
    has no package, and otherwise a "Failed to read manifest file: " followed
    by the text of the error caught. *)
Theorem X3_manifest_errors :
  forall (w : World) (assets : list string) (e : JsError),
    value (readAppManifest w assets) = Thrown e ->
    (count_packages assets = 0
     /\ e = Error "No jar or zip file found in assets directory")
    \/ (1 <= count_packages assets
        /\ exists caught,
             e = Error ("Failed to read manifest file: " ++ toString caught)).
Proof.
  intros w assets e Hv.
  destruct (picked_or_none assets) as [[file [isPlugin Hp]]|[Hj Hz]].
  - right. split; [exact (proj2 (picked_counts _ _ _ Hp))|].
    rewrite (value_readAppManifest_picked w assets file isPlugin Hp) in Hv.
    unfold readManifestFrom in Hv. rewrite value_try_catch in Hv.
    destruct (value (bind _ _)) as [m|caught]; [discriminate|].
    cbn [value throw] in Hv. injection Hv as <-. now exists caught.
  - left. rewrite (readAppManifest_none w assets Hj Hz) in Hv.
    cbn [value] in Hv. injection Hv as <-. split; [|reflexivity].
    unfold count_packages.
    destruct (filter _ assets) as [|x l] eqn:Hf; [reflexivity|].
    assert (Hx : In x (filter (fun file => is_jar file || is_zip file) assets))
      by (rewrite Hf; left; reflexivity).
    apply filter_In in Hx. destruct Hx as [Hin Hx].
    apply orb_true_iff in Hx. destruct Hx as [Hx|Hx].
    + pose proof (find_none _ _ Hj x Hin) as Hn. unfold is_jar in Hx.
      simpl in Hn. congruence.
    + pose proof (find_none _ _ Hz x Hin) as Hn. unfold is_zip in Hx.
      simpl in Hn. congruence.
Qed.

Lemma X3_manifest_errors_witness :
  (count_packages ["notes.md"] = 0
   /\ Error "No jar or zip file found in assets directory"
      = Error "No jar or zip file found in assets directory")
  \/ (1 <= count_packages ["notes.md"]
      /\ exists caught,
           Error "No jar or zip file found in assets directory"
           = Error ("Failed to read manifest file: " ++ toString caught)).
Proof.
  exact (X3_manifest_errors demo_world ["notes.md"] _ eq_refl).
Defined.

(** ** Manifest extraction: which of several packages *)









(** ** The listing of the assets directory *)

(** X5: [getAssets] returns a listing exactly when the directory exists and
    its listing is not empty, and then returns that listing as it is; it does
    not list a directory that does not exist; and when listing throws, it
    throws that same error. *)
Theorem X5_getAssets_listing :
  forall w : World,
    (forall assets,
        value (getAssets w) = Ok assets <->
        existsSync w (assetsDir w) = true
        /\ readdirSync w (assetsDir w) = Ok assets
        /\ assets <> [])
    /\ (existsSync w (assetsDir w) = false ->
        events (getAssets w) = [ExistsSync (assetsDir w)])
    /\ (forall e,
          existsSync w (assetsDir w) = true ->
          readdirSync w (assetsDir w) = Thrown e ->
          getAssets w
          = mkOut [ExistsSync (assetsDir w); ReaddirSync (assetsDir w)] [] (Thrown e)).
Proof.
  intros w. split; [|split].
  - intros assets. split; [apply getAssets_ok|].
    intros [He [Hr Hne]]. unfold getAssets.
    rewrite value_bind. unfold call at 1. cbn [value]. rewrite He. cbn [negb].
    rewrite value_bind. unfold call at 1. cbn [value]. rewrite Hr.
    destruct assets as [|a l]; [contradiction | reflexivity].
  - intros He. unfold getAssets. rewrite He. reflexivity.
  - intros e He Hr. unfold getAssets. rewrite He, Hr. reflexivity.
Qed.

Lemma X5_getAssets_listing_witness :
  value (getAssets demo_world) = Ok ["plugin-1.jar"; "checksums.txt"]
  /\ events (getAssets no_assets_world) = [ExistsSync "build/libs"]
  /\ getAssets not_a_directory_world
     = mkOut [ExistsSync "build/libs"; ReaddirSync "build/libs"] []
             (Thrown (Error "ENOTDIR: not a directory, scandir 'build/libs'")).
Proof.
  split; [|split].
  - apply (proj1 (X5_getAssets_listing demo_world)).
    split; [reflexivity|]. split; [reflexivity | discriminate].
  - exact (proj1 (proj2 (X5_getAssets_listing no_assets_world)) eq_refl).
  - exact (proj2 (proj2 (X5_getAssets_listing not_a_directory_world)) _ eq_refl eq_refl).
Defined.

(** ** The calls to GitHub *)

Lemma getGitHubRepoInfo_result (w : World) (owner repo : string) :
  getGitHubRepoInfo w owner repo
  = mkOut (Info "Fetch GitHub repo info" :: ReposGet owner repo
           :: if is_ok (repos_get w owner repo)
              then [Info "Successfully fetched repo info"] else [])
          [] (repos_get w owner repo).
Proof. unfold getGitHubRepoInfo. destruct (repos_get w owner repo); reflexivity. Qed.

Lemma getGitHubReleaseInfo_result (w : World) (owner repo : string) :
  getGitHubReleaseInfo w owner repo
  = mkOut (Info "Fetch GitHub release info"
           :: ReposGetRelease owner repo (NumberOf (releaseId w))
           :: if is_ok (repos_getRelease w owner repo (NumberOf (releaseId w)))
              then [Info "Successfully fetched release info"] else [])
          [] (repos_getRelease w owner repo (NumberOf (releaseId w))).
Proof.
  unfold getGitHubReleaseInfo.
  destruct (repos_getRelease w owner repo (NumberOf (releaseId w))); reflexivity.
Qed.

(** X6: when the repository cannot be fetched, the run stops there: the
    release is not asked for, nothing is rendered, no file is touched, and the
    failure reported is the message of the error GitHub's client threw. *)
Theorem X6_repository_fetch_fails :
  forall (w : World) (owner repo : string) (e : JsError),
    releaseId w <> "" ->
    context_repo w = Ok (owner, repo) ->
    repos_get w owner repo = Thrown e ->
    main w = [ContextRepo; Info "Fetch GitHub repo info"; ReposGet owner repo;
              SetFailed ("❌ [Failed]: " ++ err_message e)].
Proof.
  intros w owner repo e Hid Hc Hrepo.
  assert (Hrun : run w = mkOut [ContextRepo; Info "Fetch GitHub repo info";
                                ReposGet owner repo] [] (Thrown e)).
  { unfold run. rewrite (truthy_string_true _ Hid). cbn [negb].
    rewrite (bind_ok (call ContextRepo (context_repo w)) (owner, repo)) by exact Hc.
    cbv beta iota.
    rewrite (bind_thrown (getGitHubRepoInfo w owner repo) e)
      by (rewrite getGitHubRepoInfo_result; exact Hrepo).
    rewrite getGitHubRepoInfo_result, Hrepo. reflexivity. }
  unfold main. rewrite Hrun. reflexivity.
Qed.

Lemma X6_repository_fetch_fails_witness :
  main repo_failing_world
  = [ContextRepo; Info "Fetch GitHub repo info"; ReposGet "halo-sigs" "plugin-demo";
     SetFailed "❌ [Failed]: Not Found"].
Proof.
  refine (X6_repository_fetch_fails repo_failing_world "halo-sigs" "plugin-demo"
            (mkError "HttpError" "Not Found") _ eq_refl eq_refl).
  discriminate.
Defined.

(** X7: the release is asked for by the number the [release-id] input
    converts to, after the repository was fetched; when it cannot be fetched
    the run stops there, before anything is rendered or any file is touched,
    and reports the message of that error. *)
Theorem X7_release_fetch_fails :
  forall (w : World) (owner repo : string) (repoInfo : RepoInfo) (e : JsError),
    releaseId w <> "" ->
    context_repo w = Ok (owner, repo) ->
    repos_get w owner repo = Ok repoInfo ->
    repos_getRelease w owner repo (NumberOf (releaseId w)) = Thrown e ->
    main w = [ContextRepo; Info "Fetch GitHub repo info"; ReposGet owner repo;
              Info "Successfully fetched repo info"; Info "Fetch GitHub release info";
              ReposGetRelease owner repo (NumberOf (releaseId w));
              SetFailed ("❌ [Failed]: " ++ err_message e)].
Proof.
  intros w owner repo repoInfo e Hid Hc Hrepo Hrel.
  assert (Hrun : run w = mkOut [ContextRepo; Info "Fetch GitHub repo info";
                                ReposGet owner repo;
                                Info "Successfully fetched repo info";
                                Info "Fetch GitHub release info";
                                ReposGetRelease owner repo (NumberOf (releaseId w))]
                               [] (Thrown e)).
  { unfold run. rewrite (truthy_string_true _ Hid). cbn [negb].
    rewrite (bind_ok (call ContextRepo (context_repo w)) (owner, repo)) by exact Hc.
    cbv beta iota.
    rewrite (bind_ok (getGitHubRepoInfo w owner repo) repoInfo)
      by (rewrite getGitHubRepoInfo_result; exact Hrepo).
    rewrite (bind_thrown (getGitHubReleaseInfo w owner repo) e)
      by (rewrite getGitHubReleaseInfo_result; exact Hrel).
    rewrite getGitHubRepoInfo_result, getGitHubReleaseInfo_result, Hrepo, Hrel.
    reflexivity. }
  unfold main. rewrite Hrun. reflexivity.
Qed.

Lemma X7_release_fetch_fails_witness :
  main release_failing_world
  = [ContextRepo; Info "Fetch GitHub repo info"; ReposGet "halo-sigs" "plugin-demo";
     Info "Successfully fetched repo info"; Info "Fetch GitHub release info";
     ReposGetRelease "halo-sigs" "plugin-demo" (NumberOf "4242");
     SetFailed "❌ [Failed]: Not Found"].
Proof.
  refine (X7_release_fetch_fails release_failing_world "halo-sigs" "plugin-demo"
            (mkRepoInfo false) (mkError "HttpError" "Not Found") _ eq_refl eq_refl eq_refl).
  discriminate.
Defined.

(** ** How far a run gets *)

Lemma stops_or_bind {A B} (Q : Event -> bool) (P : Prop) (m : Out A) (k : A -> Out B) :
  filter Q (events m) = [] -> late m = [] ->
  (forall a, value m = Ok a -> stops_quietly Q (k a) \/ P) ->
  stops_quietly Q (bind m k) \/ P.
Proof.
  intros He Hl Hk. destruct (value m) as [a|e] eqn:Hv.
  - destruct (Hk a eq_refl) as [[He' [Hl' Hv']]|HP]; [left | now right].
    rewrite (bind_ok m a k Hv). unfold stops_quietly. cbn [events late value].
    rewrite filter_app, He, He', Hl, Hl'. repeat split. exact Hv'.
  - left. rewrite (bind_thrown m e k Hv). unfold stops_quietly.
    cbn [events late value]. repeat split; assumption.
Qed.

Lemma local_getGitHubRepoInfo (w : World) (owner repo : string) :
  filter is_local (events (getGitHubRepoInfo w owner repo)) = [].
Proof.
  rewrite getGitHubRepoInfo_result. cbn [events].
  destruct (repos_get w owner repo); reflexivity.
Qed.

Lemma local_getGitHubReleaseInfo (w : World) (owner repo : string) :
  filter is_local (events (getGitHubReleaseInfo w owner repo)) = [].
Proof.
  rewrite getGitHubReleaseInfo_result. cbn [events].
  destruct (repos_getRelease w owner repo _); reflexivity.
Qed.

Lemma local_getReleaseNote (w : World) (repoInfo : RepoInfo) (releaseInfo : ReleaseInfo) :
  filter is_local (events (getReleaseNote w repoInfo releaseInfo)) = [].
Proof. unfold getReleaseNote. crunch. Qed.

Lemma fetched_of_stages (w : World) (owner repo : string) (repoInfo : RepoInfo)
    (releaseInfo : ReleaseInfo) (html markdown : string) :
  truthy_string (releaseId w) = true ->
  context_repo w = Ok (owner, repo) ->
  value (getGitHubRepoInfo w owner repo) = Ok repoInfo ->
  value (getGitHubReleaseInfo w owner repo) = Ok releaseInfo ->
  value (getReleaseNote w repoInfo releaseInfo) = Ok (html, markdown) ->
  fetched w releaseInfo html markdown.
Proof.
  intros Hid Hc Hrepo Hrel Hnote.
  rewrite value_getGitHubRepoInfo in Hrepo.
  rewrite value_getGitHubReleaseInfo in Hrel.
  destruct (getReleaseNote_ok w repoInfo releaseInfo html markdown Hnote)
    as [Hmd [owner' [repo' [Hc' Hr]]]].
  rewrite Hc in Hc'. injection Hc' as <- <-.
  split.
  - intros Hempty. rewrite Hempty in Hid. discriminate.
  - exists owner, repo, repoInfo. repeat split; assumption.
Qed.

(** A run either stops before it touches the file system, or has fetched the
    release and its note. *)
Lemma run_fetches_first (w : World) :
  stops_quietly is_local (run w)
  \/ exists releaseInfo html markdown, fetched w releaseInfo html markdown.
Proof.
  unfold run. destruct (truthy_string (releaseId w)) eqn:Hid; cbn [negb];
    [|left; repeat split].
  apply stops_or_bind; [reflexivity | reflexivity | intros [owner repo] Hc].
  apply stops_or_bind;
    [apply local_getGitHubRepoInfo | apply quiet_getGitHubRepoInfo | intros repoInfo Hrepo].
  apply stops_or_bind;
    [apply local_getGitHubReleaseInfo | apply quiet_getGitHubReleaseInfo
     | intros releaseInfo Hrel].
  apply stops_or_bind;
    [apply local_getReleaseNote | apply quiet_getReleaseNote | intros [html markdown] Hnote].
  right. exists releaseInfo, html, markdown.
  exact (fetched_of_stages w owner repo repoInfo releaseInfo html markdown
           Hid Hc Hrepo Hrel Hnote).
Qed.

(** X8: the action looks at the assets directory, or opens an archive, only
    once the release identifier was given and the repository, the release and
    the rendered note were all fetched. *)
Theorem X8_files_only_after_fetch :
  forall w : World,
    filter is_local (main w) <> [] ->
    exists releaseInfo html markdown, fetched w releaseInfo html markdown.
Proof.
  intros w Hlocal.
  destruct (run_fetches_first w) as [[He [Hl Hv]]|Hf]; [|exact Hf].
  exfalso. apply Hlocal. unfold main. rewrite Hl, !filter_app, He.
  destruct (value (run w)); [discriminate | reflexivity].
Qed.

Lemma X8_files_only_after_fetch_witness :
  filter is_local (main demo_world) <> []
  /\ exists releaseInfo html markdown, fetched demo_world releaseInfo html markdown.
Proof.
  assert (H : filter is_local (main demo_world) <> []) by (vm_compute; discriminate).
  split; [exact H | exact (X8_files_only_after_fetch demo_world H)].
Defined.

Lemma is_release_late_stage (ev : Event) :
  is_release_stage ev = true -> is_late_stage ev = true.
Proof.
  unfold is_release_stage, is_late_stage. intros H.
  apply orb_true_iff in H. destruct H as [-> | ->]; [reflexivity|].
  now rewrite !orb_true_r.
Qed.

(** A run either stops before it calls the store, or has fetched the note,
    listed the assets and read the manifest. *)
Lemma run_reads_first (w : World) :
  stops_quietly is_release_stage (run w)
  \/ exists releaseInfo html markdown assets appManifest,
       fetched w releaseInfo html markdown
       /\ value (getAssets w) = Ok assets
       /\ value (readAppManifest w assets) = Ok (Some appManifest).
Proof.
  unfold run. destruct (truthy_string (releaseId w)) eqn:Hid; cbn [negb];
    [|left; repeat split].
  apply stops_or_bind; [reflexivity | reflexivity | intros [owner repo] Hc].
  apply stops_or_bind; [| apply quiet_getGitHubRepoInfo | intros repoInfo Hrepo].
  { apply (filter_none_weaken _ _ _ is_release_late_stage), quiet_getGitHubRepoInfo. }
  apply stops_or_bind; [| apply quiet_getGitHubReleaseInfo | intros releaseInfo Hrel].
  { apply (filter_none_weaken _ _ _ is_release_late_stage), quiet_getGitHubReleaseInfo. }
  apply stops_or_bind; [| apply quiet_getReleaseNote | intros [html markdown] Hnote].
  { apply (filter_none_weaken _ _ _ is_release_late_stage), quiet_getReleaseNote. }
  apply stops_or_bind; [| apply quiet_getAssets | intros assets Ha].
  { apply (filter_none_weaken _ _ _ is_release_late_stage), quiet_getAssets. }
  apply stops_or_bind; [apply quiet_readAppManifest ..| intros m Hm].
  right. destruct (readAppManifest_some w assets m Hm) as [r [v ->]].
  exists releaseInfo, html, markdown, assets, (mkManifest r v).
  split; [|split; assumption].
  exact (fetched_of_stages w owner repo repoInfo releaseInfo html markdown
           Hid Hc Hrepo Hrel Hnote).
Qed.

(** Once the manifest is read, what remains of the run is [finish]. *)
Lemma run_finish (w : World) (releaseInfo : ReleaseInfo) (html markdown : string)
    (assets : list string) (appManifest : option CommonManifest) :
  fetched w releaseInfo html markdown ->
  value (getAssets w) = Ok assets ->
  value (readAppManifest w assets) = Ok appManifest ->
  exists before,
    run w = mkOut (before ++ events (finish w releaseInfo html markdown assets appManifest))
                  (late (finish w releaseInfo html markdown assets appManifest))
                  (value (finish w releaseInfo html markdown assets appManifest))
    /\ filter is_release_stage before = [].
Proof.
  intros Hf Ha Hm.
  destruct (run_publish w releaseInfo html markdown Hf) as [Hv [Hl [pre [He Hpre]]]].
  destruct (quiet_getAssets w) as [Hqa Hla].
  destruct (quiet_readAppManifest w assets) as [Hqm Hlm].
  assert (Hpub : publish w releaseInfo html markdown =
                 mkOut (events (getAssets w) ++ events (readAppManifest w assets)
                        ++ events (finish w releaseInfo html markdown assets appManifest))
                       (late (finish w releaseInfo html markdown assets appManifest))
                       (value (finish w releaseInfo html markdown assets appManifest))).
  { unfold publish.
    rewrite (bind_ok (getAssets w) assets _ Ha).
    rewrite (bind_ok (readAppManifest w assets) appManifest _ Hm).
    cbn [events late value]. rewrite Hla, Hlm. reflexivity. }
  exists (pre ++ events (getAssets w) ++ events (readAppManifest w assets))%list.
  split.
  - destruct (run w) as [ev lt vl]. cbn [events late value] in Hv, Hl, He.
    rewrite Hv, Hl, He, Hpub. cbn [events late value]. now rewrite <- !app_assoc.
  - rewrite !filter_app, Hqm.
    rewrite (filter_none_weaken _ _ _ is_release_late_stage Hpre).
    rewrite (filter_none_weaken _ _ _ is_release_late_stage Hqa).
    reflexivity.
Qed.

Lemma createAppRelease_result (w : World) (release : ReleaseInfo)
    (html markdown : string) (appManifest : CommonManifest) :
  let payload := releasePayload release html markdown appManifest in
  createAppRelease w release html markdown (Some appManifest)
  = mkOut (Info "Create app release" :: StorePost (releases_url w) payload
           :: if is_ok (store_post w (releases_url w) payload)
              then [Info "Successfully created app release"] else [])
          [] (store_post w (releases_url w) payload).
Proof.
  cbv zeta. unfold createAppRelease.
  destruct (store_post w (releases_url w) _); reflexivity.
Qed.

(** ** What [uploadAssets] never does *)

Section UploadsSilent.

Variable w : World.
Variable P : Event -> bool.
Hypothesis P_exists : forall path, P (ExistsSync path) = false.
Hypothesis P_upload : forall url form headers, P (StoreUpload url form headers) = false.
Hypothesis P_uploading : forall index total asset, P (uploading_line index total asset) = false.
Hypothesis P_uploaded : forall asset, P (uploaded_line asset) = false.
Hypothesis P_header :
  forall n, P (Info ("Uploading " ++ string_of_nat n ++ " assets")) = false.
Hypothesis P_footer : P (Info "All assets uploaded") = false.

Lemma startUploads_silent (releaseName : JsValue) (total index : nat)
    (assets : list string) :
  filter P (fst (startUploads w releaseName total index assets)) = [].
Proof.
  revert index.
  induction assets as [|asset rest IH]; intros index; cbn [startUploads fst];
    [reflexivity|].
  rewrite filter_app, IH, app_nil_r. unfold startUpload.
  fold (uploading_line index total asset).
  destruct (negb (existsSync w (assetsDir w ++ "/" ++ asset))); cbn [fst filter].
  - now rewrite P_exists.
  - now rewrite P_exists, P_uploading, P_upload.
Qed.

Lemma uploaded_logs_silent (settled : list Promise) :
  filter P (uploaded_logs settled) = [].
Proof.
  induction settled as [|q rest IH]; cbn [uploaded_logs]; [reflexivity|].
  destruct (outcome q); [|exact IH].
  fold (uploaded_line (asset_of q)). cbn [filter]. now rewrite P_uploaded.
Qed.

Lemma Promise_all_silent (settled : list Promise) : silent P (Promise_all settled).
Proof.
  unfold silent.
  induction settled as [|q rest [IHe IHl]]; cbn [Promise_all]; [split; reflexivity|].
  destruct (outcome q).
  - rewrite events_bind, late_bind. unfold info, call. cbn [events late value app].
    fold (uploaded_line (asset_of q)). cbn [filter]. rewrite P_uploaded.
    split; assumption.
  - cbn [events late]. split; [reflexivity | apply uploaded_logs_silent].
Qed.

Lemma uploadAssets_silent (releaseName : JsValue) (assets : list string) :
  silent P (uploadAssets w releaseName assets).
Proof.
  unfold silent, uploadAssets.
  rewrite !events_bind, !late_bind. unfold info, call. cbn [events late value app].
  destruct (Promise_all_silent
              (settle_order (snd (startUploads w releaseName (List.length assets) 0 assets))))
    as [He Hl].
  split.
  - cbn [filter]. rewrite P_header, !filter_app, startUploads_silent, He.
    destruct (value (Promise_all _)); cbn [filter app]; [now rewrite P_footer | reflexivity].
  - rewrite filter_app, Hl. destruct (value (Promise_all _)); reflexivity.
Qed.

End UploadsSilent.

(** ** The calls to the store *)

Lemma silent_bind {A B} (P : Event -> bool) (m : Out A) (k : A -> Out B) :
  silent P m -> (forall a, silent P (k a)) -> silent P (bind m k).
Proof.
  intros [He Hl] Hk. unfold silent. rewrite events_bind, late_bind, !filter_app, He, Hl.
  destruct (value m) as [a|e]; [exact (Hk a) | split; reflexivity].
Qed.

Lemma is_post_release_stage (ev : Event) : is_post ev = true -> is_release_stage ev = true.
Proof. destruct ev; simpl; try discriminate. reflexivity. Qed.

(** After the release is created nothing is posted to the releases endpoint. *)
Lemma after_create_silent (w : World) (assets : list string) (appRelease : JsValue) :
  silent is_post
    (metadata <- lift (get_prop appRelease "metadata") ;;
     releaseName <- lift (get_prop metadata "name") ;;
     uploadAssets w releaseName assets).
Proof.
  apply silent_bind; [split; reflexivity | intros metadata].
  apply silent_bind; [split; reflexivity | intros releaseName].
  apply uploadAssets_silent; intros; reflexivity.
Qed.

Lemma finish_posts_once (w : World) (releaseInfo : ReleaseInfo) (html markdown : string)
    (assets : list string) (appManifest : CommonManifest) :
  filter is_post (events (finish w releaseInfo html markdown assets (Some appManifest)))
  = [StorePost (releases_url w) (releasePayload releaseInfo html markdown appManifest)]
  /\ filter is_post (late (finish w releaseInfo html markdown assets (Some appManifest)))
     = [].
Proof.
  unfold finish. rewrite events_bind, late_bind, createAppRelease_result.
  cbn [events late value app].
  destruct (store_post w (releases_url w) _) as [appRelease|e]; cbn [is_ok].
  - destruct (after_create_silent w assets appRelease) as [He Hl].
    cbn [filter is_post app]. rewrite He, Hl. split; reflexivity.
  - split; reflexivity.
Qed.

(** X9: in a run the release is created at most once, and only once the note
    was fetched, the assets were listed and the manifest was read; the request
    is then built from that release, that rendered note and that manifest. *)
Theorem X9_release_posted_once :
  forall w : World,
    filter is_post (main w) = []
    \/ exists releaseInfo html markdown assets appManifest,
         fetched w releaseInfo html markdown
         /\ value (getAssets w) = Ok assets
         /\ value (readAppManifest w assets) = Ok (Some appManifest)
         /\ filter is_post (main w)
            = [StorePost (releases_url w)
                         (releasePayload releaseInfo html markdown appManifest)].
Proof.
  intros w.
  destruct (run_reads_first w)
    as [[He [Hl Hv]]|[releaseInfo [html [markdown [assets [m [Hf [Ha Hm]]]]]]]].
  - left. unfold main. rewrite Hl, !filter_app.
    rewrite (filter_none_weaken _ _ _ is_post_release_stage He).
    destruct (value (run w)); [discriminate | reflexivity].
  - right. exists releaseInfo, html, markdown, assets, m.
    split; [exact Hf|]. split; [exact Ha|]. split; [exact Hm|].
    destruct (run_finish w releaseInfo html markdown assets (Some m) Hf Ha Hm)
      as [before [Hrun Hb]].
    destruct (finish_posts_once w releaseInfo html markdown assets m) as [He Hl].
    unfold main. rewrite Hrun. cbn [events late value].
    rewrite !filter_app, He, Hl.
    rewrite (filter_none_weaken _ _ _ is_post_release_stage Hb).
    destruct (value (finish _ _ _ _ _ _)); reflexivity.
Qed.




(** X11: when the store creates the release and answers with something that
    has no [metadata] to read a name from, the run fails with a [TypeError]
    after the release was created, and no asset is uploaded. *)
Theorem X11_answer_without_metadata :
  forall (w : World) (releaseInfo : ReleaseInfo) (html markdown : string)
         (assets : list string) (appManifest : CommonManifest) (appRelease : JsValue),
    fetched w releaseInfo html markdown ->
    value (getAssets w) = Ok assets ->
    value (readAppManifest w assets) = Ok (Some appManifest) ->
    store_post w (releases_url w) (releasePayload releaseInfo html markdown appManifest)
    = Ok appRelease ->
    nullish appRelease || nullish (property appRelease "metadata") = true ->
    (exists what, value (run w) = Thrown (TypeError what))
    /\ filter is_upload (main w) = []
    /\ filter is_post (main w)
       = [StorePost (releases_url w)
                    (releasePayload releaseInfo html markdown appManifest)].
Proof.
  intros w releaseInfo html markdown assets m appRelease Hf Ha Hm Hp Hnull.
  destruct (run_finish w releaseInfo html markdown assets (Some m) Hf Ha Hm)
    as [before [Hrun Hb]].
  assert (Hfin : exists what,
             finish w releaseInfo html markdown assets (Some m)
             = mkOut [Info "Create app release";
                      StorePost (releases_url w)
                                (releasePayload releaseInfo html markdown m);
                      Info "Successfully created app release"]
                     [] (Thrown (TypeError what))).
  { unfold finish.
    rewrite (bind_ok (createAppRelease w releaseInfo html markdown (Some m)) appRelease)
      by (rewrite value_createAppRelease_some; exact Hp).
    rewrite createAppRelease_result. cbv zeta. rewrite Hp. cbn [events late value is_ok].
    destruct (nullish appRelease) eqn:Hn.
    - rewrite (bind_thrown (lift (get_prop appRelease "metadata")) _ _
                 (get_prop_nullish appRelease "metadata" Hn)).
      eexists. reflexivity.
    - cbn [orb] in Hnull.
      rewrite (bind_ok (lift (get_prop appRelease "metadata")) _ _
                 (get_prop_property appRelease "metadata" Hn)).
      rewrite (bind_thrown (lift (get_prop (property appRelease "metadata") "name")) _ _
                 (get_prop_nullish _ "name" Hnull)).
      eexists. reflexivity. }
  destruct Hfin as [what Hfin].
  unfold main. rewrite Hrun, Hfin. cbn [events late value].
  split; [now exists what|].
  rewrite !filter_app.
  rewrite (filter_none_weaken _ _ _ is_upload_release_stage Hb).
  rewrite (filter_none_weaken _ _ _ is_post_release_stage Hb).
  split; reflexivity.
Qed.

Lemma X11_answer_without_metadata_witness :
  (exists what, value (run bare_answer_world) = Thrown (TypeError what))
  /\ filter is_upload (main bare_answer_world) = [].
Proof.
  destruct (X11_answer_without_metadata bare_answer_world demo_release
              ("<p>" ++ releaseBody (mkRepoInfo false) demo_release ++ "</p>")
              (releaseBody (mkRepoInfo false) demo_release)
              ["plugin-1.jar"; "checksums.txt"]
              (mkManifest (JsString "2.0.0") (JsString "1.2.3"))
              (JsObject [("status", JsString "created")])
              (demo_fetched bare_answer_world eq_refl eq_refl eq_refl eq_refl eq_refl)
              eq_refl eq_refl eq_refl eq_refl)
    as [Hv [Hup _]].
  split; assumption.
Defined.

(** ** The outcome is reported once *)

Section ReportSilent.

Variable w : World.

Lemma report_getGitHubRepoInfo (owner repo : string) :
  silent is_report (getGitHubRepoInfo w owner repo).
Proof.
  unfold silent. rewrite getGitHubRepoInfo_result. cbn [events late].
  destruct (repos_get w owner repo); split; reflexivity.
Qed.

Lemma report_getGitHubReleaseInfo (owner repo : string) :
  silent is_report (getGitHubReleaseInfo w owner repo).
Proof.
  unfold silent. rewrite getGitHubReleaseInfo_result. cbn [events late].
  destruct (repos_getRelease w owner repo _); split; reflexivity.
Qed.

Lemma report_getReleaseNote (repoInfo : RepoInfo) (releaseInfo : ReleaseInfo) :
  silent is_report (getReleaseNote w repoInfo releaseInfo).
Proof. unfold silent, getReleaseNote. split; crunch. Qed.

Lemma report_getAssets : silent is_report (getAssets w).
Proof.
  unfold silent, getAssets. split; crunch;
    destruct (negb (existsSync w (assetsDir w))); crunch;
    destruct (Nat.eqb _ 0); crunch.
Qed.

Lemma report_readManifestFrom (targetFile : string) (isPlugin : bool) :
  silent is_report (readManifestFrom w targetFile isPlugin).
Proof. unfold silent, readManifestFrom. split; crunch. Qed.

Lemma report_readAppManifest (assets : list string) :
  silent is_report (readAppManifest w assets).
Proof.
  destruct (picked_or_none assets) as [[file [isPlugin Hp]]|[Hj Hz]].
  - rewrite (readAppManifest_picked w assets file isPlugin Hp).
    apply silent_bind; [split; reflexivity | intros _].
    apply silent_bind; [split; destruct isPlugin; reflexivity | intros _].
    apply report_readManifestFrom.
  - rewrite (readAppManifest_none w assets Hj Hz). split; reflexivity.
Qed.

Lemma report_createAppRelease (release : ReleaseInfo) (html markdown : string)
    (appManifest : option CommonManifest) :
  silent is_report (createAppRelease w release html markdown appManifest).
Proof. unfold silent, createAppRelease. split; crunch. Qed.

Lemma report_uploadAssets (releaseName : JsValue) (assets : list string) :
  silent is_report (uploadAssets w releaseName assets).
Proof. apply uploadAssets_silent; intros; reflexivity. Qed.

Lemma report_run : silent is_report (run w).
Proof.
  unfold run. destruct (truthy_string (releaseId w)); cbn [negb];
    [|split; reflexivity].
  apply silent_bind; [split; reflexivity | intros [owner repo]].
  apply silent_bind; [apply report_getGitHubRepoInfo | intros repoInfo].
  apply silent_bind; [apply report_getGitHubReleaseInfo | intros releaseInfo].
  apply silent_bind; [apply report_getReleaseNote | intros [html markdown]].
  apply silent_bind; [apply report_getAssets | intros assets].
  apply silent_bind; [apply report_readAppManifest | intros appManifest].
  apply silent_bind; [apply report_createAppRelease | intros appRelease].
  apply silent_bind; [split; reflexivity | intros metadata].
  apply silent_bind; [split; reflexivity | intros releaseName].
  apply report_uploadAssets.
Qed.

End ReportSilent.

(** X12: the action reports its outcome exactly once: the completion notice
    when [run] returned, [setFailed] with the message of the error when it
    threw; no stage reports on its own, and uploads that are still running
    when the run fails report nothing. *)
Theorem X12_outcome_reported_once :
  forall w : World,
    filter is_report (main w)
    = [match value (run w) with
       | Ok _ => Info "✅ [Completed]: App release created successfully"
       | Thrown error => SetFailed ("❌ [Failed]: " ++ err_message error)
       end].
Proof.
  intros w. destruct (report_run w) as [He Hl].
  unfold main. rewrite !filter_app, He, Hl.
  destruct (value (run w)); reflexivity.
Qed.

(** ** The uploads, one by one *)

Lemma Promise_all_logs (settled : list Promise) :
  (events (Promise_all settled) ++ late (Promise_all settled))%list
  = uploaded_logs settled.
Proof.
  induction settled as [|q rest IH]; cbn [Promise_all uploaded_logs]; [reflexivity|].
  destruct (outcome q).
  - rewrite events_bind, late_bind. unfold info, call. cbn [events late value app].
    now rewrite IH.
  - reflexivity.
Qed.

Lemma In_uploaded_logs (settled : list Promise) (p : Promise) :
  In p settled -> is_ok (outcome p) = true ->
  In (uploaded_line (asset_of p)) (uploaded_logs settled).
Proof.
  induction settled as [|q rest IH]; intros Hin Hok; [destruct Hin|].
  cbn [uploaded_logs]. destruct Hin as [->|Hin].
  - destruct (outcome p); [left; reflexivity | discriminate].
  - destruct (outcome q); [right|]; now apply IH.
Qed.

Lemma asset_of_promiseOf (w : World) (releaseName : JsValue) (asset : string) :
  asset_of (promiseOf w releaseName asset) = asset.
Proof.
  unfold promiseOf, startUpload.
  destruct (negb (existsSync w (assetsDir w ++ "/" ++ asset))); reflexivity.
Qed.

Lemma outcome_promiseOf (w : World) (releaseName : JsValue) (asset : string) :
  is_ok (outcome (promiseOf w releaseName asset))
  = present w asset && accepted w releaseName asset.
Proof.
  unfold promiseOf, startUpload, present, accepted.
  destruct (existsSync w (assetsDir w ++ "/" ++ asset)); reflexivity.
Qed.

Lemma events_late_uploadAssets (w : World) (releaseName : JsValue)
    (assets : list string) :
  exists footer,
    (events (uploadAssets w releaseName assets)
     ++ late (uploadAssets w releaseName assets))%list
    = (Info ("Uploading " ++ string_of_nat (List.length assets) ++ " assets")
       :: fst (startUploads w releaseName (List.length assets) 0 assets)
       ++ events (Promise_all (settle_order (map (promiseOf w releaseName) assets)))
       ++ footer
       ++ late (Promise_all (settle_order (map (promiseOf w releaseName) assets))))%list.
Proof.
  unfold uploadAssets. rewrite !events_bind, !late_bind. unfold info, call.
  cbn [events late value app]. rewrite snd_startUploads.
  destruct (value (Promise_all _)).
  - exists [Info "All assets uploaded"]. cbn [app]. rewrite !app_nil_r.
    now rewrite <- !app_assoc.
  - exists []. cbn [app]. rewrite !app_nil_r. now rewrite <- !app_assoc.
Qed.

(** X13: a failing upload cancels nothing.  Whatever [uploadAssets] returns,
    a request was issued for every asset that was on disk, in the order of the
    listing, and every upload the store accepts logs its success, before the
    failure is reported or after. *)
Theorem X13_uploads_not_cancelled :
  forall (w : World) (releaseName : JsValue) (assets : list string),
    filter is_upload (events (uploadAssets w releaseName assets))
    = map (uploadOf w releaseName) (filter (present w) assets)
    /\ (forall asset,
          In asset assets ->
          present w asset = true ->
          accepted w releaseName asset = true ->
          In (uploaded_line asset)
             (events (uploadAssets w releaseName assets)
              ++ late (uploadAssets w releaseName assets))).
Proof.
  intros w releaseName assets. split.
  - exact (proj1 (uploads_uploadAssets w releaseName assets)).
  - intros asset Hin Hp Ha.
    destruct (events_late_uploadAssets w releaseName assets) as [footer ->].
    right. apply in_or_app; right.
    assert (Hlog : In (uploaded_line asset)
                      (uploaded_logs (settle_order (map (promiseOf w releaseName) assets)))).
    { rewrite <- (asset_of_promiseOf w releaseName asset).
      apply In_uploaded_logs.
      - apply In_settle_order. now apply in_map.
      - now rewrite outcome_promiseOf, Hp, Ha. }
    rewrite <- Promise_all_logs in Hlog. apply in_app_or in Hlog.
    destruct Hlog as [Hlog|Hlog].
    + apply in_or_app; now left.
    + apply in_or_app; right. apply in_or_app; now right.
Qed.

Lemma X13_uploads_not_cancelled_witness :
  In (uploaded_line "plugin-1.jar")
     (events (uploadAssets rejecting_world (JsString "app-release-x7k2p")
                           ["plugin-1.jar"; "checksums.txt"])
      ++ late (uploadAssets rejecting_world (JsString "app-release-x7k2p")
                            ["plugin-1.jar"; "checksums.txt"])).
Proof.
  exact (proj2 (X13_uploads_not_cancelled rejecting_world (JsString "app-release-x7k2p")
                  ["plugin-1.jar"; "checksums.txt"])
           "plugin-1.jar" (or_introl eq_refl) eq_refl eq_refl).
Defined.

(** *** The order in which the promises settle *)

Lemma insert_settled_now (p : Promise) (settled : list Promise) :
  settles p = 0 -> insert_settled p settled = p :: settled.
Proof. intros H. destruct settled as [|q rest]; simpl; [reflexivity | now rewrite H]. Qed.

Lemma insert_settled_later (p : Promise) (now later : list Promise) :
  (forall q, In q now -> settles q = 0) -> settles p <> 0 ->
  insert_settled p (now ++ later) = (now ++ insert_settled p later)%list.
Proof.
  intros Hnow Hp. induction now as [|q rest IH]; [reflexivity|].
  cbn [app insert_settled]. rewrite (Hnow q (or_introl eq_refl)).
  destruct (settles p) as [|n] eqn:Hs; [contradiction|]. cbn [Nat.leb].
  f_equal. apply IH. intros q' Hq'. apply Hnow. now right.
Qed.

Lemma settles_promiseOf (w : World) (releaseName : JsValue) (asset : string) :
  (present w asset = false -> settles (promiseOf w releaseName asset) = 0)
  /\ (present w asset = true -> settles (promiseOf w releaseName asset) <> 0).
Proof.
  unfold promiseOf, startUpload, present.
  destruct (existsSync w (assetsDir w ++ "/" ++ asset)); cbn; split;
    intros H; try discriminate; reflexivity.
Qed.

(** The promises of the assets that are gone settle first, in the order of
    the listing. *)
Lemma settle_order_gone_first (w : World) (releaseName : JsValue) (assets : list string) :
  settle_order (map (promiseOf w releaseName) assets)
  = (map (promiseOf w releaseName) (filter (fun a => negb (present w a)) assets)
     ++ settle_order (map (promiseOf w releaseName) (filter (present w) assets)))%list.
Proof.
  induction assets as [|asset rest IH]; [reflexivity|].
  cbn [map filter settle_order fold_right].
  fold (settle_order (map (promiseOf w releaseName) rest)). rewrite IH.
  destruct (settles_promiseOf w releaseName asset) as [Hgone Hhere].
  destruct (present w asset) eqn:Hp; cbn [negb].
  - cbn [map settle_order fold_right].
    fold (settle_order (map (promiseOf w releaseName) (filter (present w) rest))).
    apply insert_settled_later; [|now apply Hhere].
    intros q Hq. apply in_map_iff in Hq. destruct Hq as [a [<- Ha]].
    apply filter_In in Ha. destruct Ha as [_ Ha].
    apply (proj1 (settles_promiseOf w releaseName a)).
    now destruct (present w a).
  - cbn [map app]. apply insert_settled_now. now apply Hgone.
Qed.

Lemma find_filter {A} (p : A -> bool) (l : list A) (x : A) :
  find p l = Some x -> exists rest, filter p l = x :: rest.
Proof.
  induction l as [|a l IH]; simpl; [discriminate|].
  destruct (p a).
  - intros H. injection H as <-. now exists (filter p l).
  - exact IH.
Qed.

(** X14: when an asset of the listing is gone, [uploadAssets] throws "Asset
    file does not exist" for the first such asset of the listing, whatever the
    store answers to the uploads that were issued, and before any of them logs
    its success. *)
Theorem X14_vanished_asset_reported_first :
  forall (w : World) (releaseName : JsValue) (assets : list string) (asset : string),
    find (fun a => negb (present w a)) assets = Some asset ->
    value (uploadAssets w releaseName assets)
    = Thrown (Error ("Asset file does not exist: " ++ assetsDir w ++ "/" ++ asset))
    /\ events (uploadAssets w releaseName assets)
       = Info ("Uploading " ++ string_of_nat (List.length assets) ++ " assets")
         :: fst (startUploads w releaseName (List.length assets) 0 assets).
Proof.
  intros w releaseName assets asset Hfind.
  destruct (find_filter _ _ _ Hfind) as [rest Hrest].
  destruct (find_some _ _ Hfind) as [_ Hgone]. apply negb_true_iff in Hgone.
  assert (Hall : Promise_all (settle_order (map (promiseOf w releaseName) assets))
                 = mkOut [] (uploaded_logs
                               (map (promiseOf w releaseName) rest
                                ++ settle_order (map (promiseOf w releaseName)
                                                     (filter (present w) assets))))
                         (Thrown (Error ("Asset file does not exist: "
                                         ++ assetsDir w ++ "/" ++ asset)))).
  { rewrite settle_order_gone_first, Hrest. cbn [map app Promise_all].
    rewrite (promiseOf_missing w releaseName asset Hgone). reflexivity. }
  split.
  - rewrite value_uploadAssets, Hall. reflexivity.
  - unfold uploadAssets. rewrite !events_bind. unfold info, call.
    cbn [events value app]. rewrite snd_startUploads, Hall. cbn [events value app].
    now rewrite app_nil_r.
Qed.

Lemma X14_vanished_asset_reported_first_witness :
  value (uploadAssets vanished_and_rejecting_world (JsString "app-release-x7k2p")
                      ["checksums.txt"; "plugin-1.jar"; "notes.md"])
  = Thrown (Error "Asset file does not exist: build/libs/plugin-1.jar").
Proof.
  exact (proj1 (X14_vanished_asset_reported_first vanished_and_rejecting_world
                  (JsString "app-release-x7k2p")
                  ["checksums.txt"; "plugin-1.jar"; "notes.md"] "plugin-1.jar" eq_refl)).
Defined.

Lemma Promise_all_ok_late (settled : list Promise) :
  is_ok (value (Promise_all settled)) = true -> late (Promise_all settled) = [].
Proof.
  induction settled as [|q rest IH]; cbn [Promise_all]; [reflexivity|].
  destruct (outcome q); [|discriminate].
  rewrite value_bind, late_bind. unfold info, call. cbn [value late app]. exact IH.
Qed.

Lemma uploadAssets_succeeds_iff (w : World) (releaseName : JsValue)
    (assets : list string) :
  value (uploadAssets w releaseName assets) = Ok tt <->
  forall asset, In asset assets ->
    present w asset = true /\ accepted w releaseName asset = true.
Proof.
  rewrite value_uploadAssets. split.
  - intros Hv asset Hin.
    assert (Hok : is_ok (outcome (promiseOf w releaseName asset)) = true).
    { apply (Promise_all_ok (settle_order (map (promiseOf w releaseName) assets))).
      - now rewrite Hv.
      - apply In_settle_order. now apply in_map. }
    rewrite outcome_promiseOf in Hok. now apply andb_true_iff in Hok.
  - intros Hall. apply Promise_all_fulfilled. intros p Hp.
    apply In_settle_order, in_map_iff in Hp. destruct Hp as [asset [<- Hin]].
    rewrite outcome_promiseOf. destruct (Hall asset Hin) as [-> ->]. reflexivity.
Qed.

(** X15: [uploadAssets] returns exactly when every asset of the listing was
    on disk and its upload was accepted; it has then logged "All assets
    uploaded" last and left nothing running. *)
Theorem X15_uploadAssets_succeeds_iff :
  forall (w : World) (releaseName : JsValue) (assets : list string),
    (value (uploadAssets w releaseName assets) = Ok tt <->
     forall asset, In asset assets ->
       present w asset = true /\ accepted w releaseName asset = true)
    /\ (value (uploadAssets w releaseName assets) = Ok tt ->
        late (uploadAssets w releaseName assets) = []
        /\ exists before,
             events (uploadAssets w releaseName assets)
             = (before ++ [Info "All assets uploaded"])%list).
Proof.
  intros w releaseName assets. split; [apply uploadAssets_succeeds_iff|].
  intros Hv. pose proof Hv as Hp. rewrite value_uploadAssets in Hp.
  unfold uploadAssets. rewrite !events_bind, !late_bind. unfold info, call.
  cbn [events late value app]. rewrite snd_startUploads.
  rewrite (Promise_all_ok_late _ (f_equal is_ok Hp)), Hp. split; [reflexivity|].
  eexists. rewrite app_comm_cons, app_assoc. reflexivity.
Qed.

Lemma X15_uploadAssets_succeeds_iff_witness :
  value (uploadAssets demo_world (JsString "app-release-x7k2p")
                      ["plugin-1.jar"; "checksums.txt"]) = Ok tt
  /\ late (uploadAssets demo_world (JsString "app-release-x7k2p")
                        ["plugin-1.jar"; "checksums.txt"]) = [].
Proof.
  assert (H : value (uploadAssets demo_world (JsString "app-release-x7k2p")
                                  ["plugin-1.jar"; "checksums.txt"]) = Ok tt).
  { apply (proj1 (X15_uploadAssets_succeeds_iff demo_world (JsString "app-release-x7k2p")
                    ["plugin-1.jar"; "checksums.txt"])).
    intros asset _. split; reflexivity. }
  split; [exact H|].
  exact (proj1 (proj2 (X15_uploadAssets_succeeds_iff demo_world
                         (JsString "app-release-x7k2p")
                         ["plugin-1.jar"; "checksums.txt"]) H)).
Defined.

Lemma uploading_line_startUploads (w : World) (releaseName : JsValue)
    (total : nat) (assets : list string) :
  forall index place asset,
    nth_error assets place = Some asset ->
    present w asset = true ->
    In (uploading_line (index + place) total asset)
       (fst (startUploads w releaseName total index assets)).
Proof.
  induction assets as [|a rest IH]; intros index place asset Hnth Hp;
    [destruct place; discriminate|].
  cbn [startUploads fst]. apply in_or_app. destruct place as [|place].
  - left. cbn in Hnth. injection Hnth as ->. rewrite Nat.add_0_r.
    unfold startUpload. unfold present in Hp. rewrite Hp. cbn [negb fst].
    right; left; reflexivity.
  - right. cbn in Hnth. replace (index + S place) with (S index + place) by lia.
    now apply IH.
Qed.

(** X16: the upload of the asset at place [i] of a listing of [n] files
    (counted from 0) is announced as "Uploading file (i+1/n)": the count is
    over the whole listing, assets that are gone included. *)
Theorem X16_upload_progress_lines :
  forall (w : World) (releaseName : JsValue) (assets : list string)
         (place : nat) (asset : string),
    nth_error assets place = Some asset ->
    present w asset = true ->
    In (Info ("Uploading file (" ++ string_of_nat (place + 1) ++ "/"
              ++ string_of_nat (List.length assets) ++ "): " ++ asset))
       (events (uploadAssets w releaseName assets)).
Proof.
  intros w releaseName assets place asset Hnth Hp.
  unfold uploadAssets. rewrite !events_bind. unfold info, call.
  cbn [events value app]. right. apply in_or_app. left.
  exact (uploading_line_startUploads w releaseName (List.length assets) assets
           0 place asset Hnth Hp).
Qed.

Lemma X16_upload_progress_lines_witness :
  In (Info "Uploading file (3/3): notes.md")
     (events (uploadAssets vanished_and_rejecting_world (JsString "app-release-x7k2p")
                           ["checksums.txt"; "plugin-1.jar"; "notes.md"])).
Proof.
  exact (X16_upload_progress_lines vanished_and_rejecting_world
           (JsString "app-release-x7k2p")
           ["checksums.txt"; "plugin-1.jar"; "notes.md"] 2 "notes.md" eq_refl eq_refl).
Defined.

(** ** When a run succeeds *)




(** ** A log line that comes too early *)

(** X18: "Successfully read app manifest" is logged once the manifest has
    parsed, before its fields are read: when the document, or its [spec], is
    [undefined] or [null], extraction logs that line and then fails. *)
Theorem X18_success_logged_before_fields_are_read :
  forall (w : World) (assets : list string) (file : string) (isPlugin : bool)
         (zip : Archive) (text : string) (manifest : JsValue),
    picked assets file isPlugin ->
    AdmZip w (path_join w (assetsDir w) file) = Ok zip ->
    getEntry zip (if isPlugin then "plugin.yaml" else "theme.yaml") = Some (Ok text) ->
    YAML_parse w text = Ok manifest ->
    nullish manifest || nullish (property manifest "spec") = true ->
    is_ok (value (readAppManifest w assets)) = false
    /\ exists before,
         events (readAppManifest w assets)
         = (before ++ [YamlParse text; Info "Successfully read app manifest"])%list.
Proof.
  intros w assets file isPlugin zip text manifest Hp Hzip Hentry Hparse Hnull.
  rewrite (readAppManifest_picked w assets file isPlugin Hp).
  assert (Hread : exists what,
             readManifestFrom w (path_join w (assetsDir w) file) isPlugin
             = mkOut [ZipOpen (path_join w (assetsDir w) file);
                      ZipGetEntry (path_join w (assetsDir w) file)
                        (if isPlugin then "plugin.yaml" else "theme.yaml");
                      YamlParse text; Info "Successfully read app manifest"]
                     [] (Thrown (Error ("Failed to read manifest file: " ++ what)))).
  { unfold readManifestFrom.
    rewrite (bind_ok (call (ZipOpen _) (AdmZip w _)) zip) by exact Hzip.
    cbv beta zeta. rewrite Hentry.
    rewrite (bind_ok (call (ZipGetEntry _ _) (Ok (Some (Ok text)))) (Some (Ok text)))
      by reflexivity.
    cbv beta iota.
    rewrite (bind_ok (lift (Ok text)) text) by reflexivity.
    rewrite (bind_ok (call (YamlParse text) (YAML_parse w text)) manifest) by exact Hparse.
    rewrite (bind_ok (info "Successfully read app manifest") tt) by reflexivity.
    destruct (nullish manifest) eqn:Hn.
    - rewrite (bind_thrown (lift (get_prop manifest "spec")) _ _
                 (get_prop_nullish manifest "spec" Hn)).
      eexists. reflexivity.
    - cbn [orb] in Hnull.
      rewrite (bind_ok (lift (get_prop manifest "spec")) _ _
                 (get_prop_property manifest "spec" Hn)).
      rewrite (bind_thrown (lift (get_prop (property manifest "spec") "requires")) _ _
                 (get_prop_nullish _ "requires" Hnull)).
      eexists. reflexivity. }
  destruct Hread as [what Hread]. rewrite Hread. split; [reflexivity|].
  exists [Info "Read app manifest";
          Info ("Found " ++ (if isPlugin then "plugin" else "theme") ++ " file: " ++ file);
          ZipOpen (path_join w (assetsDir w) file);
          ZipGetEntry (path_join w (assetsDir w) file)
                      (if isPlugin then "plugin.yaml" else "theme.yaml")].
  reflexivity.
Qed.

Lemma X18_success_logged_before_fields_are_read_witness :
  is_ok (value (readAppManifest specless_world ["plugin-1.jar"])) = false
  /\ exists before,
       events (readAppManifest specless_world ["plugin-1.jar"])
       = (before ++ [YamlParse specless_manifest_text;
                     Info "Successfully read app manifest"])%list.
Proof.
  exact (X18_success_logged_before_fields_are_read specless_world ["plugin-1.jar"]
           "plugin-1.jar" true [("plugin.yaml", Ok specless_manifest_text)]
           specless_manifest_text (JsObject [("name", JsString "demo")])
           eq_refl eq_refl eq_refl eq_refl eq_refl).
Defined.
